(** * mpi_learn: the training driver and the coordination rules it configures

    The development has two layers.

    - [Driver] embeds [MPIDriver.py] (the [__main__] block and
      [load_model]).  The script is Python 2: [/] on two integers is floor
      division, an unbound name raises [NameError], an uncaught exception
      ends the process.  Calls into modules that the script only imports
      ([MPIManager], [get_device], [H5Data], keras, the file system, the
      clock) are answered by an environment record [Env]; what the script
      itself does with the answers is written out statement by statement.
    - [Topology], [Sync], [Easgd] and [Worker] describe the coordination
      engine ([MPIManager], [Algo] and the process classes), whose sources
      are not part of the tree.  They follow the written specification.

    Python floats are represented by rationals ([Q]): the statements below
    are about the arithmetic rule, not about rounding. *)

From Stdlib Require Import ZArith QArith Qfield List String Ascii Bool Lia.
From Stdlib Require Import Permutation DecimalString.
Import ListNotations.

Set Warnings "-register-all".

Local Open Scope string_scope.
Local Open Scope list_scope.
Local Open Scope Z_scope.

(** ** Python values and exceptions *)

Inductive exn : Type :=
| ValueError
| NameError (name : string)
| ZeroDivisionError
| IOError (path : string)
| ImportError
| ConfigurationError
| TransportError
| ModelDivergedError.

(** Values that end up in [vars(args)], in keyword arguments and in the
    JSON history file. *)
Inductive pyval : Type :=
| PNone
| PBool (b : bool)
| PInt (z : Z)
| PFloat (q : Q)
| PStr (s : string)
| PList (l : list pyval)
| PDict (kv : list (string * pyval)).

Fixpoint lookup (k : string) (kv : list (string * pyval)) : option pyval :=
  match kv with
  | [] => None
  | (k', v) :: rest => if String.eqb k k' then Some v else lookup k rest
  end.

(** [a / b] on two Python 2 integers: floor division, [ZeroDivisionError]
    on a zero divisor. *)
Definition py_int_div (a b : Z) : exn + Z :=
  if b =? 0 then inl ZeroDivisionError else inr (a / b).

(** [x / n] with a float [x] and an integer [n]: true division. *)
Definition py_float_div_int (x : Q) (n : Z) : exn + Q :=
  if n =? 0 then inl ZeroDivisionError else inr (x / inject_Z n)%Q.

(** [str.strip()] with no argument. *)
Definition is_space (c : ascii) : bool :=
  let n := nat_of_ascii c in
  Nat.eqb n 32 || (Nat.leb 9 n && Nat.leb n 13).

Fixpoint lstrip (s : string) : string :=
  match s with
  | EmptyString => EmptyString
  | String c s' => if is_space c then lstrip s' else s
  end.

Fixpoint rstrip (s : string) : string :=
  match s with
  | EmptyString => EmptyString
  | String c s' =>
      match rstrip s' with
      | EmptyString => if is_space c then EmptyString else String c EmptyString
      | r => String c r
      end
  end.

Definition strip (s : string) : string := rstrip (lstrip s).

(** ['_'.join(parts)] *)
Definition join (sep : string) (parts : list string) : string :=
  String.concat sep parts.

(** ["%d" % n] for a non-negative [n]. *)
Definition fmt_d (n : nat) : string := NilEmpty.string_of_uint (Nat.to_uint n).

(** ** The driver, [MPIDriver.py] *)

Module Driver.

(** The namespace returned by [parser.parse_args()]. *)
Record Args : Type := {
  model_name : string;
  load_weights : bool;
  trial_name : string;
  train_data : string;
  val_data : string;
  features_name : string;
  labels_name : string;
  batch : Z;
  masters : Z;
  max_gpus : Z;
  synchronous : bool;
  epochs : Z;
  optimizer : string;
  loss : string;
  worker_optimizer : string;
  sync_every : Z;
  easgd : bool;
  elastic_force : Q;
  elastic_lr : Q
}.

(** [vars(args)] *)
Definition vars (a : Args) : pyval :=
  PDict [ ("model_name", PStr (model_name a));
          ("load_weights", PBool (load_weights a));
          ("trial_name", PStr (trial_name a));
          ("train_data", PStr (train_data a));
          ("val_data", PStr (val_data a));
          ("features_name", PStr (features_name a));
          ("labels_name", PStr (labels_name a));
          ("batch", PInt (batch a));
          ("masters", PInt (masters a));
          ("max_gpus", PInt (max_gpus a));
          ("synchronous", PBool (synchronous a));
          ("epochs", PInt (epochs a));
          ("optimizer", PStr (optimizer a));
          ("loss", PStr (loss a));
          ("worker_optimizer", PStr (worker_optimizer a));
          ("sync_every", PInt (sync_every a));
          ("easgd", PBool (easgd a));
          ("elastic_force", PFloat (elastic_force a));
          ("elastic_lr", PFloat (elastic_lr a)) ].

Definition with_optimizer (o : string) (a : Args) : Args :=
  {| model_name := model_name a; load_weights := load_weights a;
     trial_name := trial_name a; train_data := train_data a;
     val_data := val_data a; features_name := features_name a;
     labels_name := labels_name a; batch := batch a; masters := masters a;
     max_gpus := max_gpus a; synchronous := synchronous a;
     epochs := epochs a; optimizer := o; loss := loss a;
     worker_optimizer := worker_optimizer a; sync_every := sync_every a;
     easgd := easgd a; elastic_force := elastic_force a;
     elastic_lr := elastic_lr a |}.

(** The call [Algo(optimizer, **kwargs)] as the driver issues it: the
    positional optimizer ([None] in EASGD mode) and the keyword arguments
    in the order they are written. *)
Record Algo : Type := {
  algo_optimizer : option string;
  algo_kwargs : list (string * pyval)
}.

(** A keras model as far as the driver looks at it. *)
Record Model : Type := {
  to_json : string;
  get_weights : pyval
}.

Inductive event : Type :=
| EvPrint (items : list pyval)
| EvPrintAlgo (algo : Algo)
| EvSetenv (key value : string)
| EvImportTheano
| EvSleep (seconds : Q)
| EvH5Data (train_list : list string) (batch_size : Z) (features labels : string)
| EvCountData
| EvModelCheckpoint (path : string)
| EvMPIManager (num_epochs : Z) (train_list val_list : list string)
               (num_masters : Z) (synchronous : bool)
| EvSetModelInfo (arch : string) (algo : Algo) (weights : pyval)
| EvTime (t : Q)
| EvTrain
| EvFreeComms
| EvWrite (path : string) (content : pyval).

(** What one pass through the body of the import loop can do. *)
Inductive import_outcome : Type :=
| ImportOk                      (* both imports succeed *)
| ValueErrorAtModels            (* [from keras.models import ...] raises ValueError *)
| ValueErrorAtCallbacks         (* [import keras.callbacks as cbks] raises ValueError *)
| ImportRaises (e : exn).       (* any exception the [except] clause does not catch *)

(** Answers of everything outside the script. *)
Record Env : Type := {
  Get_rank : Z;
  Get_size : Z;
  open_read : string -> exn + list string;
  open_write : string -> exn + unit;
  get_device : Z -> Z -> exn + string;
  import_keras : nat -> import_outcome;
  H5Data : list string -> Z -> exn + unit;
  count_data : exn + Z;
  MPIManager : Z -> Z -> exn + unit;
  model_from_json : string -> exn + Model;
  model_load_weights : Model -> string -> exn + Model;
  train : exn + pyval;
  time : nat -> Q
}.

(** Exceptions and the log of observable actions. *)
Definition M (A : Type) : Type := (exn + A) * list event.

Definition ret {A} (a : A) : M A := (inr a, []).
Definition raise {A} (e : exn) : M A := (inl e, []).
Definition emit (ev : event) : M unit := (inr tt, [ev]).
Definition lift {A} (r : exn + A) : M A := (r, []).
Definition bind {A B} (m : M A) (k : A -> M B) : M B :=
  match fst m with
  | inl e => (inl e, snd m)
  | inr a => (fst (k a), snd m ++ snd (k a))
  end.

Notation "x <- m ;; k" := (bind m (fun x => k))
  (at level 61, m at next level, right associativity).
Notation "m ;; k" := (bind m (fun _ => k))
  (at level 61, right associativity).

(** Which of the two keras names the import loop has bound. *)
Record names : Type := {
  has_model_from_json : bool;
  has_cbks : bool
}.

Definition need (bound : bool) (name : string) : M unit :=
  if bound then ret tt else raise (NameError name).

(** Lines 87-94: [for try_num in range(10)] with its [try]/[except
    ValueError].  [tries] is what is left of [range(10)]. *)
Fixpoint import_loop (env : Env) (tries : list nat) (ns : names) : M names :=
  match tries with
  | [] => ret ns
  | try_num :: rest =>
      match import_keras env try_num with
      | ImportOk =>
          ret {| has_model_from_json := true; has_cbks := true |}   (* break *)
      | ValueErrorAtModels =>
          emit (EvPrint [PStr ("Unable to import keras. Trying again: "
                               ++ fmt_d try_num)%string]) ;;
          emit (EvSleep (1 # 10)) ;;
          import_loop env rest ns
      | ValueErrorAtCallbacks =>
          emit (EvPrint [PStr ("Unable to import keras. Trying again: "
                               ++ fmt_d try_num)%string]) ;;
          emit (EvSleep (1 # 10)) ;;
          import_loop env rest
            {| has_model_from_json := true; has_cbks := has_cbks ns |}
      | ImportRaises e => raise e
      end
  end.

Definition range (n : nat) : list nat := seq 0 n.

(** Lines 16-26. *)
Definition load_model (env : Env) (ns : names)
    (model_name : string) (load_weights : bool) : M Model :=
  let json_filename := (model_name ++ "_arch.json")%string in
  arch_file <- lift (open_read env json_filename) ;;
  need (has_model_from_json ns) "model_from_json" ;;
  model <- lift (model_from_json env (hd "" arch_file)) ;;
  if load_weights then
    let weights_filename := (model_name ++ "_weights.h5")%string in
    lift (model_load_weights env model weights_filename)
  else ret model.

(** Lines 116-123: the [Algo] the rank-0 process builds. *)
Definition make_algo (args : Args) (size : Z) (validate_every : Z) : exn + Algo :=
  if easgd args then
    match py_float_div_int (elastic_force args) (size - 1) with
    | inl e => inl e
    | inr force =>
        inr {| algo_optimizer := None;
               algo_kwargs :=
                 [ ("loss", PStr (loss args));
                   ("validate_every", PInt validate_every);
                   ("mode", PStr "easgd");
                   ("elastic_lr", PFloat (elastic_lr args));
                   ("sync_every", PInt (sync_every args));
                   ("worker_optimizer", PStr (worker_optimizer args));
                   ("elastic_force", PFloat force) ] |}
    end
  else
    inr {| algo_optimizer := Some (optimizer args);
           algo_kwargs :=
             [ ("loss", PStr (loss args));
               ("validate_every", PInt validate_every);
               ("sync_every", PInt (sync_every args));
               ("worker_optimizer", PStr (worker_optimizer args)) ] |}.

(** Line 101, executed by rank 0 only. *)
Definition derive_validate_every (count batch : Z) : exn + Z :=
  py_int_div count batch.

(** Lines 70-105: everything before the manager is created.  Returns the
    stripped file lists, the bound keras names and, on rank 0,
    [validate_every]. *)
Definition setup (args : Args) (env : Env)
  : M (list string * list string * names * option Z) :=
  train_lines <- lift (open_read env (train_data args)) ;;
  let train_list := map strip train_lines in
  val_lines <- lift (open_read env (val_data args)) ;;
  let val_list := map strip val_lines in
  device <- lift (get_device env (masters args) (max_gpus args)) ;;
  emit (EvPrint [PStr "Process"; PInt (Get_rank env);
                 PStr "using device"; PStr device]) ;;
  emit (EvSetenv "THEANO_FLAGS" ("device=" ++ device ++ ",floatX=float32")%string) ;;
  emit EvImportTheano ;;
  ns <- import_loop env (range 10) {| has_model_from_json := false;
                                      has_cbks := false |} ;;
  emit (EvH5Data train_list (batch args) (features_name args) (labels_name args)) ;;
  lift (H5Data env train_list (batch args)) ;;
  validate_every <-
    (if Get_rank env =? 0 then
       emit EvCountData ;;
       count <- lift (count_data env) ;;
       v <- lift (derive_validate_every count (batch args)) ;;
       ret (Some v)
     else ret None) ;;
  need (has_cbks ns) "cbks" ;;
  emit (EvModelCheckpoint
          (join "_" [model_name args; trial_name args; "mpi_learn_result.h5"])) ;;
  ret (train_list, val_list, ns, validate_every).

(** Lines 114-142: what rank 0 does once the manager exists. *)
Definition rank0 (args : Args) (env : Env) (ns : names) (validate_every : Z)
  : M unit :=
  model <- load_model env ns (model_name args) (load_weights args) ;;
  let model_arch := to_json model in
  algo <- lift (make_algo args (Get_size env) validate_every) ;;
  emit (EvPrintAlgo algo) ;;
  let weights := get_weights model in
  emit (EvSetModelInfo model_arch algo weights) ;;
  let t_0 := time env 0 in
  emit (EvTime t_0) ;;
  emit EvTrain ;;
  histories <- lift (train env) ;;
  let t_1 := time env 1 in
  emit (EvTime t_1) ;;
  let delta_t := (t_1 - t_0)%Q in
  emit EvFreeComms ;;
  emit (EvPrint [PStr "Training finished in %.3f seconds"; PFloat delta_t]) ;;
  let out_dict := PDict [ ("args", vars args);
                          ("history", histories);
                          ("train_time", PFloat delta_t) ] in
  let json_name := join "_" [model_name args; trial_name args; "history.json"] in
  lift (open_write env json_name) ;;
  emit (EvWrite json_name out_dict) ;;
  emit (EvPrint [PStr "Wrote trial information to"; PStr json_name]).

(** The [__main__] block. *)
Definition main (args : Args) (env : Env) : M unit :=
  s <- setup args env ;;
  let '(train_list, val_list, ns, validate_every) := s in
  emit (EvMPIManager (epochs args) train_list val_list
                     (masters args) (synchronous args)) ;;
  lift (MPIManager env (Get_size env) (masters args)) ;;
  if Get_rank env =? 0 then
    match validate_every with
    | Some v => rank0 args env ns v
    | None => raise (NameError "validate_every")
    end
  else ret tt.

End Driver.

(** ** Process topology (specification, section 4.1) *)

Module Topology.

Inductive role : Type :=
| Master
| Worker (owner : nat).

Record topology : Type := {
  total : nat;      (* processes in the communication group *)
  groups : nat      (* master groups *)
}.

(** Modelled from the spec: the topology construction inside [MPIManager],
    whose source is missing.  It "fails with ConfigurationError if requested
    master count >= total process count (no workers would remain) or <= 0". *)
Definition build (total_procs masters : Z) : exn + topology :=
  if (masters <=? 0) || (total_procs <=? masters) then inl ConfigurationError
  else inr {| total := Z.to_nat total_procs; groups := Z.to_nat masters |}.

(** Modelled from the spec: the rank-to-role map, missing with [MPIManager].
    The spec allows "round-robin or block partition"; this is the
    round-robin one: ranks below the group count are the masters, the
    remaining ranks are workers dealt to the masters in turn. *)
Definition role_of (t : topology) (rank : nat) : option role :=
  if (rank <? groups t)%nat then Some Master
  else if (rank <? total t)%nat
       then Some (Worker ((rank - groups t) mod groups t))
       else None.

(** Modelled from the spec: "for masters, the set of owned worker ranks". *)
Definition owned (t : topology) (m : nat) : list nat :=
  filter (fun r => match role_of t r with
                   | Some (Worker o) => Nat.eqb o m
                   | _ => false
                   end)
         (seq 0 (total t)).

(** Modelled from the spec: construction of the manager, seen from the
    driver, is the topology check and nothing else ("detected at
    construction, aborts before any process starts training"). *)
Definition MPIManager_init (size masters : Z) : exn + unit :=
  match build size masters with
  | inl e => inl e
  | inr _ => inr tt
  end.

End Topology.

(** ** Model snapshots *)

Definition snapshot : Type := list Q.

Fixpoint zip_with (f : Q -> Q -> Q) (a b : snapshot) : snapshot :=
  match a, b with
  | x :: a', y :: b' => f x y :: zip_with f a' b'
  | _, _ => []
  end.

Definition vadd : snapshot -> snapshot -> snapshot := zip_with Qplus.
Definition vsub : snapshot -> snapshot -> snapshot := zip_with Qminus.
Definition vscale (k : Q) (a : snapshot) : snapshot := map (Qmult k) a.
Definition vzero (n : nat) : snapshot := repeat 0%Q n.
Definition vsum (n : nat) (l : list snapshot) : snapshot :=
  fold_right vadd (vzero n) l.

(** Equality of snapshots up to the representation of the rationals. *)
Definition snapshot_eq (a b : snapshot) : Prop := Forall2 Qeq a b.

(** ** Synchronous mode (specification, section 4.3) *)

Module Sync.

Record contribution : Type := {
  sender : nat;
  delta : snapshot;
  batch_size : Z
}.

Inductive phase : Type :=
| Idle
| AwaitingWorkerUpdates (pending : list nat) (received : list contribution)
| Aggregating (received : list contribution)
| Broadcasting (averaged : snapshot).

Record master : Type := {
  params : snapshot;
  state : phase;
  owned : list nat
}.

Definition remove_rank (r : nat) (l : list nat) : list nat :=
  filter (fun x => negb (Nat.eqb x r)) l.

Definition same_batch (cs : list contribution) : bool :=
  match cs with
  | [] => true
  | c :: rest => forallb (fun c' => batch_size c' =? batch_size c) rest
  end.

Definition total_batch (cs : list contribution) : Z :=
  fold_right (fun c acc => batch_size c + acc) 0 cs.

(** Modelled from the spec: the aggregation rule of the missing [Algo]:
    "averages the contributions (arithmetic mean, unweighted unless batch
    sizes differ, in which case weight by batch size)". *)
Definition average (n : nat) (cs : list contribution) : snapshot :=
  if same_batch cs then
    vscale (1 / inject_Z (Z.of_nat (List.length cs)))%Q (vsum n (map delta cs))
  else
    vscale (1 / inject_Z (total_batch cs))%Q
           (vsum n (map (fun c => vscale (inject_Z (batch_size c)) (delta c)) cs)).

(** Modelled from the spec: the master's synchronous round, states
    Idle, AwaitingWorkerUpdates, Aggregating, Broadcasting.  A step that the
    current state does not allow returns [None]. *)
Definition begin_round (m : master) : option master :=
  match state m with
  | Idle => Some {| params := params m;
                    state := match owned m with
                             | [] => Aggregating []
                             | _ => AwaitingWorkerUpdates (owned m) []
                             end;
                    owned := owned m |}
  | _ => None
  end.

Definition receive (m : master) (c : contribution) : option master :=
  match state m with
  | AwaitingWorkerUpdates pending received =>
      if existsb (Nat.eqb (sender c)) pending then
        let pending' := remove_rank (sender c) pending in
        let received' := received ++ [c] in
        Some {| params := params m;
                state := match pending' with
                         | [] => Aggregating received'
                         | _ => AwaitingWorkerUpdates pending' received'
                         end;
                owned := owned m |}
      else None
  | _ => None
  end.

Definition aggregate (m : master) : option master :=
  match state m with
  | Aggregating received =>
      let new := vadd (params m) (average (List.length (params m)) received) in
      Some {| params := new; state := Broadcasting new; owned := owned m |}
  | _ => None
  end.

(** Broadcasting: every owned worker overwrites its local snapshot.  The
    workers' snapshots are listed as (rank, snapshot). *)
Definition broadcast (m : master) (workers : list (nat * snapshot))
  : option (master * list (nat * snapshot)) :=
  match state m with
  | Broadcasting averaged =>
      Some ({| params := params m; state := Idle; owned := owned m |},
            map (fun w => if existsb (Nat.eqb (fst w)) (owned m)
                          then (fst w, averaged) else w) workers)
  | _ => None
  end.

Fixpoint receive_all (m : master) (arrivals : list contribution) : option master :=
  match arrivals with
  | [] => Some m
  | c :: rest =>
      match receive m c with
      | Some m' => receive_all m' rest
      | None => None
      end
  end.

Definition round (m : master) (arrivals : list contribution)
    (workers : list (nat * snapshot))
  : option (master * list (nat * snapshot)) :=
  match begin_round m with
  | None => None
  | Some m1 =>
      match receive_all m1 arrivals with
      | None => None
      | Some m2 =>
          match aggregate m2 with
          | None => None
          | Some m3 => broadcast m3 workers
          end
      end
  end.

(** The scenario of section 8: one master (rank 0), two workers (ranks 1
    and 2), one scalar parameter at 0.0, deltas +1.0 and +3.0. *)
Definition master0 : master :=
  {| params := [0%Q]; state := Idle; owned := [1%nat; 2%nat] |}.

Definition arrivals0 : list contribution :=
  [ {| sender := 1; delta := [1%Q]; batch_size := 100 |};
    {| sender := 2; delta := [3%Q]; batch_size := 100 |} ].

(** The workers' local parameters after their own step of the round. *)
Definition workers0 : list (nat * snapshot) :=
  [ (1%nat, [1%Q]); (2%nat, [3%Q]) ].

End Sync.

(** ** Elastic averaging (specification, section 4.3) *)

Module Easgd.

Record config : Type := {
  elastic_force : Q;
  elastic_lr : Q
}.

(** Modelled from the spec: the elastic correction of the missing [Algo],
    "delta = elastic_lr * elastic_force * (worker_params - master_params)". *)
Definition elastic_delta (c : config) (worker master : snapshot) : snapshot :=
  zip_with (fun w m => elastic_lr c * elastic_force c * (w - m))%Q worker master.

(** Modelled from the spec: the worker-side sync of the missing [Algo].  The
    worker pulls the master's snapshot, subtracts [delta] from its own
    parameters and signals a correction to the master; the result is the
    worker's new snapshot and the correction.  The correction carries
    [delta] itself, which is what the scenario of section 8 fixes (the
    master receives +0.5 when [delta] is 0.5). *)
Definition worker_sync (c : config) (worker master : snapshot)
  : snapshot * snapshot :=
  let d := elastic_delta c worker master in
  (vsub worker d, d).

(** Modelled from the spec: the master "adds it to its own snapshot
    immediately upon receipt". *)
Definition master_receive (master correction : snapshot) : snapshot :=
  vadd master correction.

(** One complete exchange: new worker snapshot, correction on the wire, new
    master snapshot. *)
Definition exchange (c : config) (worker master : snapshot)
  : snapshot * snapshot * snapshot :=
  let '(worker', correction) := worker_sync c worker master in
  (worker', correction, master_receive master correction).

(** Section 4.3 also words the correction as "elastic_force * delta
    (sign-adjusted)".  Kept apart: it disagrees with the scenario of
    section 8 whenever [elastic_force] is not 1. *)
Definition scaled_correction (c : config) (worker master : snapshot) : snapshot :=
  vscale (elastic_force c) (elastic_delta c worker master).

Definition config0 : config :=
  {| elastic_force := (1 # 10)%Q; elastic_lr := 1%Q |}.

End Easgd.

(** ** The worker loop (specification, section 4.4) *)

Module Worker.

Record state : Type := {
  round : nat;
  params : snapshot;
  sync_log : list nat     (* rounds at which the worker synchronised *)
}.

(** A sync is due at round [r]. *)
Definition due (sync_every r : nat) : bool := Nat.eqb (r mod sync_every) 0.

Section Loop.

Variable batch : Type.
(** Gradient computation and local optimiser step (external collaborator). *)
Variable local_step : snapshot -> batch -> snapshot.
(** The Algorithm Policy's worker-side sync against the owning master, at a
    given round. *)
Variable sync : nat -> snapshot -> snapshot.
Variable sync_every : nat.

(** Modelled from the spec: one iteration of the missing worker class:
    "for each batch compute gradient via Model capability, apply local
    optimizer step; increment round counter; if round % sync_every == 0,
    invoke Algorithm Policy's worker-side sync". *)
Definition process_batch (s : state) (b : batch) : state :=
  let p := local_step (params s) b in
  let r := S (round s) in
  if Nat.eqb (r mod sync_every) 0
  then {| round := r; params := sync r p; sync_log := sync_log s ++ [r] |}
  else {| round := r; params := p; sync_log := sync_log s |}.

Definition run_epoch (s : state) (batches : list batch) : state :=
  fold_left process_batch batches s.

End Loop.

End Worker.

(** ** Scenarios used to exercise the driver *)

Module Scenario.
Import Driver.

Definition args0 : Args :=
  {| model_name := "mnist"; load_weights := false; trial_name := "train";
     train_data := "train.txt"; val_data := "val.txt";
     features_name := "features"; labels_name := "labels";
     batch := 100; masters := 1; max_gpus := -1; synchronous := false;
     epochs := 1; optimizer := "rmsprop"; loss := "binary_crossentropy";
     worker_optimizer := "sgd"; sync_every := 1; easgd := true;
     elastic_force := (9 # 10)%Q; elastic_lr := 1%Q |}.

Definition model0 : Model :=
  {| to_json := "{}"; get_weights := PList [PFloat 0] |}.

(** Three processes, this one is rank 0; every collaborator answers. *)
Definition env0 : Env :=
  {| Get_rank := 0; Get_size := 3;
     open_read := fun path => inr [(path ++ " ")%string];
     open_write := fun _ => inr tt;
     get_device := fun _ _ => inr "cpu";
     import_keras := fun _ => ImportOk;
     H5Data := fun _ _ => inr tt;
     count_data := inr 1000;
     MPIManager := fun _ _ => inr tt;
     model_from_json := fun _ => inr model0;
     model_load_weights := fun m _ => inr m;
     train := inr (PDict [("loss", PList [PFloat (1 # 2)])]);
     time := fun k => (inject_Z (Z.of_nat k) * 7)%Q |}.

(** The same run with a keras import that raises [ValueError] every time. *)
Definition env_keras_down : Env :=
  {| Get_rank := Get_rank env0; Get_size := Get_size env0;
     open_read := open_read env0; open_write := open_write env0;
     get_device := get_device env0;
     import_keras := fun _ => ValueErrorAtModels;
     H5Data := H5Data env0; count_data := count_data env0;
     MPIManager := MPIManager env0;
     model_from_json := model_from_json env0;
     model_load_weights := model_load_weights env0;
     train := train env0; time := time env0 |}.

(** The run of [env0] over a training set of 50 examples (batch size 100). *)
Definition env_small : Env :=
  {| Get_rank := Get_rank env0; Get_size := Get_size env0;
     open_read := open_read env0; open_write := open_write env0;
     get_device := get_device env0;
     import_keras := import_keras env0;
     H5Data := H5Data env0; count_data := inr 50;
     MPIManager := MPIManager env0;
     model_from_json := model_from_json env0;
     model_load_weights := model_load_weights env0;
     train := train env0; time := time env0 |}.

(** The run of [env0] with the manager's construction as the specification
    describes it, asked for as many master groups as there are processes. *)
Definition env_checked : Env :=
  {| Get_rank := Get_rank env0; Get_size := Get_size env0;
     open_read := open_read env0; open_write := open_write env0;
     get_device := get_device env0;
     import_keras := import_keras env0;
     H5Data := H5Data env0; count_data := count_data env0;
     MPIManager := Topology.MPIManager_init;
     model_from_json := model_from_json env0;
     model_load_weights := model_load_weights env0;
     train := train env0; time := time env0 |}.

Definition args_three_masters : Args :=
  {| model_name := model_name args0; load_weights := load_weights args0;
     trial_name := trial_name args0; train_data := train_data args0;
     val_data := val_data args0; features_name := features_name args0;
     labels_name := labels_name args0; batch := batch args0; masters := 3;
     max_gpus := max_gpus args0; synchronous := synchronous args0;
     epochs := epochs args0; optimizer := optimizer args0; loss := loss args0;
     worker_optimizer := worker_optimizer args0;
     sync_every := sync_every args0; easgd := easgd args0;
     elastic_force := elastic_force args0; elastic_lr := elastic_lr args0 |}.

End Scenario.

(** ** What is observed of a run of the driver *)

Module Obs.
Import Driver.

(** Calls that reach the manager or its process. *)
Definition is_manager_call (ev : event) : bool :=
  match ev with
  | EvMPIManager _ _ _ _ _ | EvSetModelInfo _ _ _ | EvTrain | EvFreeComms => true
  | _ => false
  end.

Definition manager_calls (tr : list event) : list event :=
  filter is_manager_call tr.

(** Calls by which rank 0 starts the training. *)
Definition is_training (ev : event) : bool :=
  match ev with
  | EvSetModelInfo _ _ _ | EvTrain => true
  | _ => false
  end.

(** One [sleep(0.1)] is logged per failed import attempt. *)
Definition is_retry (ev : event) : bool :=
  match ev with
  | EvSleep _ => true
  | _ => false
  end.

Definition is_h5data (ev : event) : bool :=
  match ev with
  | EvH5Data _ _ _ _ => true
  | _ => false
  end.

Definition retries (tr : list event) : nat := List.length (filter is_retry tr).

(** The attempt ends in the [except ValueError] clause. *)
Definition import_fails (o : import_outcome) : bool :=
  match o with
  | ValueErrorAtModels | ValueErrorAtCallbacks => true
  | _ => false
  end.

Definition no_names : names :=
  {| has_model_from_json := false; has_cbks := false |}.

(** A computation that makes no call on the manager. *)
Definition quiet {A} (m : M A) : Prop := manager_calls (snd m) = [].

(** A computation that ends in an exception. *)
Definition fails {A} (m : M A) : Prop := exists e, fst m = inl e.

(** The [Algo] handed to [set_model_info], if the run got that far. *)
Fixpoint algo_handed_over (tr : list event) : option Algo :=
  match tr with
  | [] => None
  | EvSetModelInfo _ algo _ :: _ => Some algo
  | _ :: rest => algo_handed_over rest
  end.

End Obs.

(** ** Text files as the two scripts use them *)

Module Files.

Definition newline : ascii := "010"%char.

Definition is_newline (c : ascii) : bool := Ascii.eqb c newline.

(** [f.readlines()]: the lines of a text, each with its line end. *)
Fixpoint readlines (s : string) : list string :=
  match s with
  | EmptyString => []
  | String c s' =>
      if is_newline c then String c EmptyString :: readlines s'
      else match readlines s' with
           | [] => [String c EmptyString]
           | l :: ls => String c l :: ls
           end
  end.

(** [f.readline()] on a fresh handle: the text up to and including the
    first line end, the empty string at end of file. *)
Definition readline (s : string) : string := hd "" (readlines s).

Fixpoint single_line (s : string) : bool :=
  match s with
  | EmptyString => true
  | String c s' => negb (is_newline c) && single_line s'
  end.

(** What is on disk: text files, and HDF5 weight files seen as the value
    [get_weights] would return from them. *)
Record disk : Type := {
  text_files : string -> option string;
  weight_files : string -> option pyval
}.

Definition empty_disk : disk :=
  {| text_files := fun _ => None; weight_files := fun _ => None |}.

Definition write_text (d : disk) (path content : string) : disk :=
  {| text_files := fun p => if String.eqb p path then Some content
                            else text_files d p;
     weight_files := weight_files d |}.

Definition write_weights (d : disk) (path : string) (w : pyval) : disk :=
  {| text_files := text_files d;
     weight_files := fun p => if String.eqb p path then Some w
                              else weight_files d p |}.

(** [open(path)] for reading, then [readlines()]. *)
Definition open_read (d : disk) (path : string) : exn + list string :=
  match text_files d path with
  | Some content => inr (readlines content)
  | None => inl (IOError path)
  end.

(** [model.load_weights(path)]: the model with the stored weights. *)
Definition load_weights (d : disk) (m : Driver.Model) (path : string)
  : exn + Driver.Model :=
  match weight_files d path with
  | Some w => inr {| Driver.to_json := Driver.to_json m;
                     Driver.get_weights := w |}
  | None => inl (IOError path)
  end.

End Files.

(** ** The model builder, [BuildModel.py] *)

Module BuildModel.

Inductive event : Type :=
| EvSaveWeights (path : string) (weights : pyval)
| EvPrint (text : string)
| EvWrite (path content : string).

(** Answers of what the script imports: [make_model] of [test.Models],
    keras' [save_weights], and [open] for writing. *)
Record Env : Type := {
  make_model : string -> exn + Driver.Model;
  save_weights : Driver.Model -> string -> exn + unit;
  open_write : string -> exn + unit
}.

(** Lines 9-25, with [model_name] the parsed positional argument. *)
Definition main (env : Env) (model_name : string) : (exn + unit) * list event :=
  match make_model env model_name with
  | inl e => (inl e, [])
  | inr model =>
      let weights_filename := (model_name ++ "_weights.h5")%string in
      match save_weights env model weights_filename with
      | inl e => (inl e, [])
      | inr _ =>
          let saved :=
            [ EvSaveWeights weights_filename (Driver.get_weights model);
              EvPrint ("Saved model weights to " ++ weights_filename)%string ] in
          let arch_filename := (model_name ++ "_arch.json")%string in
          let model_arch := Driver.to_json model in
          match open_write env arch_filename with
          | inl e => (inl e, saved)
          | inr _ =>
              (inr tt,
               saved ++
               [ EvWrite arch_filename model_arch;
                 EvPrint ("Saved model architecture to " ++ arch_filename)%string ])
          end
      end
  end.

(** The effect of a run on the disk. *)
Definition apply_event (d : Files.disk) (ev : event) : Files.disk :=
  match ev with
  | EvSaveWeights path w => Files.write_weights d path w
  | EvPrint _ => d
  | EvWrite path content => Files.write_text d path content
  end.

Definition disk_after (d : Files.disk) (tr : list event) : Files.disk :=
  fold_left apply_event tr d.

Definition is_write (ev : event) : bool :=
  match ev with
  | EvWrite _ _ => true
  | _ => false
  end.

Definition is_save (ev : event) : bool :=
  match ev with
  | EvSaveWeights _ _ => true
  | _ => false
  end.

End BuildModel.

(** ** Further views of a run of the driver *)

Module View.
Import Driver.

(** Actions that belong to rank 0 alone. *)
Definition is_rank0_action (ev : event) : bool :=
  match ev with
  | EvCountData | EvPrintAlgo _ | EvSetModelInfo _ _ _ | EvTime _ | EvTrain
  | EvFreeComms | EvWrite _ _ => true
  | _ => false
  end.

Definition is_write (ev : event) : bool :=
  match ev with
  | EvWrite _ _ => true
  | _ => false
  end.

Definition is_free_comms (ev : event) : bool :=
  match ev with
  | EvFreeComms => true
  | _ => false
  end.

Definition is_mpi_manager (ev : event) : bool :=
  match ev with
  | EvMPIManager _ _ _ _ _ => true
  | _ => false
  end.

Definition with_synchronous (b : bool) (a : Args) : Args :=
  {| model_name := model_name a; load_weights := load_weights a;
     trial_name := trial_name a; train_data := train_data a;
     val_data := val_data a; features_name := features_name a;
     labels_name := labels_name a; batch := batch a; masters := masters a;
     max_gpus := max_gpus a; synchronous := b;
     epochs := epochs a; optimizer := optimizer a; loss := loss a;
     worker_optimizer := worker_optimizer a; sync_every := sync_every a;
     easgd := easgd a; elastic_force := elastic_force a;
     elastic_lr := elastic_lr a |}.

Definition both_names : names :=
  {| has_model_from_json := true; has_cbks := true |}.

(** No white space at either end. *)
Definition starts_clean (s : string) : bool :=
  match s with
  | EmptyString => true
  | String c _ => negb (is_space c)
  end.

Fixpoint ends_clean (s : string) : bool :=
  match s with
  | EmptyString => true
  | String c EmptyString => negb (is_space c)
  | String _ s' => ends_clean s'
  end.

Definition checkpoint_name (a : Args) : string :=
  join "_" [model_name a; trial_name a; "mpi_learn_result.h5"].

Definition history_name (a : Args) : string :=
  join "_" [model_name a; trial_name a; "history.json"].

End View.

(** ** More runs *)

Module Runs.
Import Driver.

Definition env_with (e : Env) (rank size : Z) (imports : nat -> import_outcome)
    (trained : exn + pyval) : Env :=
  {| Get_rank := rank; Get_size := size;
     open_read := open_read e; open_write := open_write e;
     get_device := get_device e;
     import_keras := imports;
     H5Data := H5Data e; count_data := count_data e;
     MPIManager := MPIManager e;
     model_from_json := model_from_json e;
     model_load_weights := model_load_weights e;
     train := trained; time := time e |}.

(** The import fails three times, then succeeds. *)
Definition flaky (k : nat) : import_outcome :=
  if (k <? 3)%nat then ValueErrorAtModels else ImportOk.

(** The import fails twice with [ValueError], then with [ImportError]. *)
Definition broken (k : nat) : import_outcome :=
  if (k <? 2)%nat then ValueErrorAtCallbacks else ImportRaises ImportError.

Definition env_worker : Env :=
  env_with Scenario.env0 1 3 (fun _ => ImportOk) (train Scenario.env0).

Definition env_train_fails : Env :=
  env_with Scenario.env0 0 3 (fun _ => ImportOk) (inl TransportError).

Definition env_alone : Env :=
  env_with Scenario.env0 0 1 (fun _ => ImportOk) (train Scenario.env0).

Definition args_batch (b : Z) : Args :=
  {| model_name := "mnist"; load_weights := false; trial_name := "train";
     train_data := "train.txt"; val_data := "val.txt";
     features_name := "features"; labels_name := "labels";
     batch := b; masters := 1; max_gpus := -1; synchronous := false;
     epochs := 1; optimizer := "rmsprop"; loss := "binary_crossentropy";
     worker_optimizer := "sgd"; sync_every := 1; easgd := true;
     elastic_force := (9 # 10)%Q; elastic_lr := 1%Q |}.

Definition builder : BuildModel.Env :=
  {| BuildModel.make_model := fun _ => inr Scenario.model0;
     BuildModel.save_weights := fun _ _ => inr tt;
     BuildModel.open_write := fun _ => inr tt |}.

(** A driver environment that reads the disk left by the builder. *)
Definition env_on_disk (d : Files.disk) : Env :=
  {| Get_rank := 0; Get_size := 3;
     open_read := Files.open_read d; open_write := fun _ => inr tt;
     get_device := fun _ _ => inr "cpu";
     import_keras := fun _ => ImportOk;
     H5Data := fun _ _ => inr tt;
     count_data := inr 1000;
     MPIManager := fun _ _ => inr tt;
     model_from_json := fun s => inr {| to_json := s; get_weights := PNone |};
     model_load_weights := Files.load_weights d;
     train := inr (PDict []);
     time := fun _ => 0%Q |}.

End Runs.

(** * Properties of the driver *)

Import Driver Obs.

Lemma bind_ok_inv {A B} (m : M A) (k : A -> M B) (b : B) (tr : list event) :
  bind m k = (inr b, tr) ->
  exists a t1 t2, m = (inr a, t1) /\ k a = (inr b, t2) /\ tr = t1 ++ t2.
Proof.
  destruct m as [[e | a] t1]; unfold bind; simpl; intros H.
  - discriminate.
  - destruct (k a) as [r t2] eqn:Hk. simpl in H.
    inversion H; subst. exists a, t1, t2. auto.
Qed.

Lemma bind_fst_err {A B} (m : M A) (k : A -> M B) (e : exn) :
  fst m = inl e -> fst (bind m k) = inl e.
Proof. unfold bind. intros ->. reflexivity. Qed.

Lemma bind_snd_err {A B} (m : M A) (k : A -> M B) (e : exn) :
  fst m = inl e -> snd (bind m k) = snd m.
Proof. unfold bind. intros ->. reflexivity. Qed.

Lemma bind_fst_ok {A B} (m : M A) (k : A -> M B) (a : A) :
  fst m = inr a -> fst (bind m k) = fst (k a).
Proof. unfold bind. intros ->. reflexivity. Qed.

Lemma bind_snd_ok {A B} (m : M A) (k : A -> M B) (a : A) :
  fst m = inr a -> snd (bind m k) = snd m ++ snd (k a).
Proof. unfold bind. intros ->. reflexivity. Qed.

Lemma lift_ok_inv {A} (r : exn + A) (a : A) (tr : list event) :
  lift r = (inr a, tr) -> r = inr a /\ tr = [].
Proof. unfold lift. intros H. inversion H. auto. Qed.

Lemma emit_inv (ev : event) (u : unit) (tr : list event) :
  emit ev = (inr u, tr) -> tr = [ev].
Proof. unfold emit. intros H. inversion H. auto. Qed.

(** *** validate_every *)

Lemma floor_quotient_positive (count batch : Z) :
  0 <= count -> batch <> 0 -> (0 < count / batch <-> 0 < batch <= count).
Proof.
  intros Hc Hb. split.
  - intros Hq.
    assert (0 < batch).
    { destruct (Z_lt_le_dec 0 batch) as [|Hneg]; [assumption|].
      assert (batch < 0) by lia.
      assert (count / batch <= 0) by (Z.to_euclidean_division_equations; nia).
      lia. }
    split; [assumption|].
    destruct (Z_lt_le_dec count batch) as [Hlt|]; [|assumption].
    rewrite Z.div_small in Hq by lia. lia.
  - intros [Hb0 Hle]. apply Z.div_str_pos. lia.
Qed.

Lemma setup_validate_every (args : Args) (env : Env) tl vl ns ve tr :
  setup args env = (inr (tl, vl, ns, ve), tr) ->
  if Get_rank env =? 0
  then exists count, count_data env = inr count /\ batch args <> 0 /\
                     ve = Some (count / batch args)
  else ve = None.
Proof.
  unfold setup. intros H.
  do 9 (apply bind_ok_inv in H; destruct H as (? & ? & ? & _ & H & _)).
  apply bind_ok_inv in H. destruct H as (v & ? & ? & Hv & H & _).
  do 2 (apply bind_ok_inv in H; destruct H as (? & ? & ? & _ & H & _)).
  inversion H; subst. clear H.
  destruct (Get_rank env =? 0).
  - apply bind_ok_inv in Hv. destruct Hv as (? & ? & ? & _ & Hv & _).
    apply bind_ok_inv in Hv. destruct Hv as (count & ? & ? & Hc & Hv & _).
    apply bind_ok_inv in Hv. destruct Hv as (q & ? & ? & Hq & Hv & _).
    apply lift_ok_inv in Hc. destruct Hc as [Hc _].
    apply lift_ok_inv in Hq. destruct Hq as [Hq _].
    inversion Hv; subst. exists count.
    unfold derive_validate_every, py_int_div in Hq.
    destruct (batch args =? 0) eqn:Hb; [discriminate|].
    inversion Hq. repeat split; auto. now apply Z.eqb_neq.
  - inversion Hv. reflexivity.
Qed.

(** C3, the claim as it is written, fails: a training set of 50 examples
    with batch size 100 gives [validate_every = 0], which is not positive,
    and that 0 is what the [Algo] of the run is built with. *)
Lemma validate_every_zero_below_one_batch :
  derive_validate_every 50 100 = inr 0 /\
  (exists algo,
      algo_handed_over (snd (main Scenario.args0 Scenario.env_small)) = Some algo /\
      lookup "validate_every" (algo_kwargs algo) = Some (PInt 0)) /\
  ~ (forall count batch v,
        0 <= count -> 0 < batch ->
        derive_validate_every count batch = inr v -> 0 < v).
Proof.
  split; [reflexivity|]. split.
  - eexists. split; vm_compute; reflexivity.
  - intros H. specialize (H 50 100 0).
    assert (0 < 0) by (apply H; [lia | lia | reflexivity]). lia.
Qed.

(** C3, amended: on rank 0 the driver sets [validate_every] to the floor of
    [count / batch] (the division raises when the batch size is 0); for a
    non-negative count the value is positive exactly when
    [0 < batch <= count], and it is 0 when the data is smaller than one
    batch. *)
Theorem validate_every_is_floor_quotient (args : Args) (env : Env) tl vl ns ve tr :
  Get_rank env = 0 ->
  setup args env = (inr (tl, vl, ns, ve), tr) ->
  exists count,
    count_data env = inr count /\
    batch args <> 0 /\
    ve = Some (count / batch args) /\
    derive_validate_every count (batch args) = inr (count / batch args) /\
    (0 <= count -> (0 < count / batch args <-> 0 < batch args <= count)) /\
    (0 <= count < batch args -> count / batch args = 0).
Proof.
  intros Hr H. apply setup_validate_every in H. rewrite Hr in H. simpl in H.
  destruct H as (count & Hc & Hb & Hv). exists count.
  split; [assumption|]. split; [assumption|]. split; [assumption|].
  split; [|split].
  - unfold derive_validate_every, py_int_div.
    destruct (batch args =? 0) eqn:E; [apply Z.eqb_eq in E; contradiction|reflexivity].
  - intros Hc0. apply floor_quotient_positive; assumption.
  - intros Hsmall. apply Z.div_small. assumption.
Qed.

Lemma validate_every_is_floor_quotient_witness :
  exists count,
    count_data Scenario.env0 = inr count /\
    batch Scenario.args0 <> 0 /\
    Some 10 = Some (count / batch Scenario.args0) /\
    derive_validate_every count (batch Scenario.args0)
      = inr (count / batch Scenario.args0) /\
    (0 <= count -> (0 < count / batch Scenario.args0
                    <-> 0 < batch Scenario.args0 <= count)) /\
    (0 <= count < batch Scenario.args0 -> count / batch Scenario.args0 = 0).
Proof.
  eapply (validate_every_is_floor_quotient Scenario.args0 Scenario.env0).
  - reflexivity.
  - vm_compute. reflexivity.
Defined.

(** *** The Algo built by rank 0 *)

Lemma workers_nonzero (size : Z) : 2 <= size -> ~ (inject_Z (size - 1) == 0)%Q.
Proof. intros H. unfold Qeq. simpl. lia. Qed.

(** C4: in EASGD mode the [elastic_force] keyword of the [Algo] is the
    command-line value divided by the process count minus one, for every
    process count of at least 2. *)
Theorem easgd_force_divided_by_workers (args : Args) (size ve : Z) :
  easgd args = true ->
  2 <= size ->
  exists algo,
    make_algo args size ve = inr algo /\
    lookup "elastic_force" (algo_kwargs algo)
      = Some (PFloat (elastic_force args / inject_Z (size - 1))%Q) /\
    (elastic_force args / inject_Z (size - 1) * inject_Z (size - 1)
       == elastic_force args)%Q.
Proof.
  intros He Hs. unfold make_algo, py_float_div_int. rewrite He.
  destruct (size - 1 =? 0) eqn:E; [apply Z.eqb_eq in E; lia|].
  eexists. split; [reflexivity|]. split; [reflexivity|].
  rewrite Qmult_comm. apply Qmult_div_r. now apply workers_nonzero.
Qed.

Lemma easgd_force_divided_by_workers_witness :
  exists algo,
    make_algo Scenario.args0 3 10 = inr algo /\
    lookup "elastic_force" (algo_kwargs algo)
      = Some (PFloat (elastic_force Scenario.args0 / inject_Z (3 - 1))%Q) /\
    (elastic_force Scenario.args0 / inject_Z (3 - 1) * inject_Z (3 - 1)
       == elastic_force Scenario.args0)%Q.
Proof.
  apply (easgd_force_divided_by_workers Scenario.args0 3 10).
  - reflexivity.
  - lia.
Defined.

(** With a single process the division itself raises. *)
Lemma easgd_single_process_raises (args : Args) (ve : Z) :
  easgd args = true -> make_algo args 1 ve = inl ZeroDivisionError.
Proof. intros He. unfold make_algo. rewrite He. reflexivity. Qed.

Lemma make_algo_easgd_optimizer (args : Args) (o : string) (size ve : Z) :
  easgd args = true ->
  make_algo (with_optimizer o args) size ve = make_algo args size ve.
Proof.
  intros He. unfold make_algo. simpl. rewrite He. reflexivity.
Qed.

Lemma setup_with_optimizer (args : Args) (env : Env) (o : string) :
  setup (with_optimizer o args) env = setup args env.
Proof. reflexivity. Qed.

Lemma manager_calls_app (t1 t2 : list event) :
  manager_calls (t1 ++ t2) = manager_calls t1 ++ manager_calls t2.
Proof. apply filter_app. Qed.

(** Up to the history file, rank 0 does the same whatever [--optimizer] is
    when [--easgd] is set. *)
Lemma rank0_easgd_optimizer (args : Args) (env : Env) (o : string) ns v :
  easgd args = true ->
  fst (rank0 (with_optimizer o args) env ns v) = fst (rank0 args env ns v) /\
  manager_calls (snd (rank0 (with_optimizer o args) env ns v))
    = manager_calls (snd (rank0 args env ns v)).
Proof.
  intros He. unfold rank0.
  rewrite (make_algo_easgd_optimizer args o _ _ He).
  change (model_name (with_optimizer o args)) with (model_name args).
  change (load_weights (with_optimizer o args)) with (load_weights args).
  change (trial_name (with_optimizer o args)) with (trial_name args).
  destruct (load_model env ns (model_name args) (load_weights args))
    as [[e | model] t]; [split; reflexivity|].
  destruct (make_algo args (Get_size env) v) as [e | algo];
    [split; reflexivity|].
  destruct (train env) as [e | histories]; [split; reflexivity|].
  destruct (open_write env
              (join "_" [model_name args; trial_name args; "history.json"]))
    as [e | []];
    (split; [reflexivity|]);
    unfold bind, lift, emit; simpl;
    rewrite !manager_calls_app; reflexivity.
Qed.

(** C10: with [--easgd] set, the [Algo] built by the driver has no
    master-side optimizer and is the same for any two values of
    [--optimizer]; so are the outcome of the run and every call made on the
    manager. *)
Theorem easgd_algo_independent_of_optimizer
    (args : Args) (env : Env) (o1 o2 : string) (size ve : Z) :
  easgd args = true ->
  make_algo (with_optimizer o1 args) size ve
    = make_algo (with_optimizer o2 args) size ve /\
  (forall algo, make_algo (with_optimizer o1 args) size ve = inr algo ->
                algo_optimizer algo = None) /\
  fst (main (with_optimizer o1 args) env) = fst (main (with_optimizer o2 args) env) /\
  manager_calls (snd (main (with_optimizer o1 args) env))
    = manager_calls (snd (main (with_optimizer o2 args) env)).
Proof.
  intros He. split; [|split].
  - rewrite !make_algo_easgd_optimizer by assumption. reflexivity.
  - intros algo. rewrite make_algo_easgd_optimizer by assumption.
    unfold make_algo. rewrite He.
    destruct (py_float_div_int (elastic_force args) (size - 1));
      intros H; inversion H; reflexivity.
  - assert (Hmain : forall o,
               fst (main (with_optimizer o args) env) = fst (main args env) /\
               manager_calls (snd (main (with_optimizer o args) env))
                 = manager_calls (snd (main args env))).
    { intros o. unfold main. rewrite setup_with_optimizer.
      destruct (setup args env) as [[e | [[[tl vl] ns] ve']] t];
        [split; reflexivity|].
      change (epochs (with_optimizer o args)) with (epochs args).
      change (masters (with_optimizer o args)) with (masters args).
      change (synchronous (with_optimizer o args)) with (synchronous args).
      destruct (MPIManager env (Get_size env) (masters args)) as [e | []];
        [split; reflexivity|].
      destruct (Get_rank env =? 0).
      - destruct ve' as [v|]; [|split; reflexivity].
        destruct (rank0_easgd_optimizer args env o ns v He) as [H1 H2].
        unfold bind, lift, emit. simpl.
        split; [assumption|].
        rewrite !manager_calls_app.
        change (manager_calls (?ev :: ?l)) with
          (if is_manager_call ev then ev :: manager_calls l else manager_calls l).
        simpl is_manager_call. cbv iota. rewrite H2. reflexivity.
      - split; reflexivity. }
    destruct (Hmain o1) as [A1 B1]. destruct (Hmain o2) as [A2 B2].
    split; congruence.
Qed.

Lemma easgd_algo_independent_of_optimizer_witness :
  make_algo (with_optimizer "adam" Scenario.args0) 3 10
    = make_algo (with_optimizer "sgd" Scenario.args0) 3 10 /\
  (forall algo, make_algo (with_optimizer "adam" Scenario.args0) 3 10 = inr algo ->
                algo_optimizer algo = None) /\
  fst (main (with_optimizer "adam" Scenario.args0) Scenario.env0)
    = fst (main (with_optimizer "sgd" Scenario.args0) Scenario.env0) /\
  manager_calls (snd (main (with_optimizer "adam" Scenario.args0) Scenario.env0))
    = manager_calls (snd (main (with_optimizer "sgd" Scenario.args0) Scenario.env0)).
Proof.
  apply (easgd_algo_independent_of_optimizer
           Scenario.args0 Scenario.env0 "adam" "sgd" 3 10).
  reflexivity.
Defined.

(** Without [--easgd] the optimizer named on the command line is the one the
    [Algo] gets, whether or not [--synchronous] is set. *)
Lemma plain_algo_uses_optimizer (args : Args) (size ve : Z) :
  easgd args = false ->
  exists algo, make_algo args size ve = inr algo /\
               algo_optimizer algo = Some (optimizer args) /\
               lookup "elastic_force" (algo_kwargs algo) = None /\
               lookup "mode" (algo_kwargs algo) = None.
Proof.
  intros He. unfold make_algo. rewrite He. eexists. repeat split.
Qed.

(** *** The history file *)

(** A completed [rank0] ends with the timed training call and the write of
    the history dictionary. *)
Lemma rank0_completed (args : Args) (env : Env) ns v tr :
  rank0 args env ns v = (inr tt, tr) ->
  exists histories pre,
    train env = inr histories /\
    tr = pre ++
         [ EvTime (time env 0); EvTrain; EvTime (time env 1); EvFreeComms;
           EvPrint [PStr "Training finished in %.3f seconds";
                    PFloat (time env 1 - time env 0)%Q];
           EvWrite (join "_" [model_name args; trial_name args; "history.json"])
                   (PDict [ ("args", vars args);
                            ("history", histories);
                            ("train_time", PFloat (time env 1 - time env 0)%Q) ]);
           EvPrint [PStr "Wrote trial information to";
                    PStr (join "_" [model_name args; trial_name args;
                                    "history.json"])] ].
Proof.
  unfold rank0. intros H.
  apply bind_ok_inv in H. destruct H as (model & t1 & ? & _ & H & ->).
  apply bind_ok_inv in H. destruct H as (algo & t2 & ? & _ & H & ->).
  apply bind_ok_inv in H. destruct H as (? & t3 & ? & _ & H & ->).
  apply bind_ok_inv in H. destruct H as (? & t4 & ? & _ & H & ->).
  apply bind_ok_inv in H. destruct H as (? & ? & ? & E1 & H & ->).
  apply emit_inv in E1. subst.
  apply bind_ok_inv in H. destruct H as (? & ? & ? & E1 & H & ->).
  apply emit_inv in E1. subst.
  apply bind_ok_inv in H. destruct H as (histories & ? & ? & E1 & H & ->).
  apply lift_ok_inv in E1. destruct E1 as [Ht ->].
  apply bind_ok_inv in H. destruct H as (? & ? & ? & E1 & H & ->).
  apply emit_inv in E1. subst.
  apply bind_ok_inv in H. destruct H as (? & ? & ? & E1 & H & ->).
  apply emit_inv in E1. subst.
  apply bind_ok_inv in H. destruct H as (? & ? & ? & E1 & H & ->).
  apply emit_inv in E1. subst.
  apply bind_ok_inv in H. destruct H as (? & ? & ? & E1 & H & ->).
  apply lift_ok_inv in E1. destruct E1 as [_ ->].
  apply bind_ok_inv in H. destruct H as (? & ? & ? & E1 & H & ->).
  apply emit_inv in E1. subst.
  apply emit_inv in H. subst.
  exists histories, (t1 ++ t2 ++ t3 ++ t4). split; [assumption|].
  simpl. rewrite <- !app_assoc. reflexivity.
Qed.

(** C9: when the run of rank 0 completes, the training call sits between
    two clock readings, and the history file holds the parsed arguments, the
    histories returned by [train()], and the difference of the two
    readings under "train_time". *)
Theorem history_artifact_on_completion (args : Args) (env : Env) (tr : list event) :
  Get_rank env = 0 ->
  main args env = (inr tt, tr) ->
  exists histories pre content,
    train env = inr histories /\
    tr = pre ++
         [ EvTime (time env 0); EvTrain; EvTime (time env 1); EvFreeComms;
           EvPrint [PStr "Training finished in %.3f seconds";
                    PFloat (time env 1 - time env 0)%Q];
           EvWrite (join "_" [model_name args; trial_name args; "history.json"])
                   (PDict content);
           EvPrint [PStr "Wrote trial information to";
                    PStr (join "_" [model_name args; trial_name args;
                                    "history.json"])] ] /\
    lookup "args" content = Some (vars args) /\
    lookup "history" content = Some histories /\
    lookup "train_time" content = Some (PFloat (time env 1 - time env 0)%Q) /\
    map fst content = ["args"; "history"; "train_time"].
Proof.
  intros Hr H. unfold main in H.
  apply bind_ok_inv in H. destruct H as ([[[tl vl] ns] ve] & t1 & ? & _ & H & ->).
  apply bind_ok_inv in H. destruct H as (? & t2 & ? & _ & H & ->).
  apply bind_ok_inv in H. destruct H as (? & t3 & ? & _ & H & ->).
  rewrite Hr in H. simpl in H.
  destruct ve as [v|]; [|discriminate].
  apply rank0_completed in H. destruct H as (histories & pre & Ht & ->).
  exists histories, (t1 ++ t2 ++ t3 ++ pre). eexists.
  split; [assumption|]. split.
  - rewrite <- !app_assoc. reflexivity.
  - repeat split.
Qed.

Lemma history_artifact_on_completion_witness :
  exists histories pre content,
    train Scenario.env0 = inr histories /\
    snd (main Scenario.args0 Scenario.env0) = pre ++
         [ EvTime (time Scenario.env0 0); EvTrain; EvTime (time Scenario.env0 1);
           EvFreeComms;
           EvPrint [PStr "Training finished in %.3f seconds";
                    PFloat (time Scenario.env0 1 - time Scenario.env0 0)%Q];
           EvWrite (join "_" [model_name Scenario.args0; trial_name Scenario.args0;
                              "history.json"])
                   (PDict content);
           EvPrint [PStr "Wrote trial information to";
                    PStr (join "_" [model_name Scenario.args0;
                                    trial_name Scenario.args0;
                                    "history.json"])] ] /\
    lookup "args" content = Some (vars Scenario.args0) /\
    lookup "history" content = Some histories /\
    lookup "train_time" content
      = Some (PFloat (time Scenario.env0 1 - time Scenario.env0 0)%Q) /\
    map fst content = ["args"; "history"; "train_time"].
Proof.
  apply (history_artifact_on_completion Scenario.args0 Scenario.env0).
  - reflexivity.
  - vm_compute. reflexivity.
Defined.

(** *** The keras import loop *)

Lemma quiet_bind {A B} (m : M A) (k : A -> M B) :
  quiet m -> (forall a, quiet (k a)) -> quiet (bind m k).
Proof.
  unfold quiet, bind. intros Hm Hk.
  destruct (fst m) as [e | a]; simpl; [assumption|].
  rewrite manager_calls_app, Hm, Hk. reflexivity.
Qed.

Lemma quiet_lift {A} (r : exn + A) : quiet (lift r).
Proof. reflexivity. Qed.

Lemma quiet_ret {A} (a : A) : quiet (ret a).
Proof. reflexivity. Qed.

Lemma quiet_need (b : bool) (name : string) : quiet (need b name).
Proof. destruct b; reflexivity. Qed.

Lemma fails_bind {A B} (m : M A) (k : A -> M B) :
  (forall a, fst m = inr a -> fails (k a)) -> fails (bind m k).
Proof.
  unfold fails, bind. intros H.
  destruct (fst m) as [e | a]; simpl.
  - exists e. reflexivity.
  - apply H. reflexivity.
Qed.

Lemma import_loop_quiet (env : Env) (tries : list nat) (ns : names) :
  quiet (import_loop env tries ns).
Proof.
  revert ns. induction tries as [| k rest IH]; intros ns; simpl.
  - apply quiet_ret.
  - destruct (import_keras env k).
    + apply quiet_ret.
    + repeat (apply quiet_bind; [reflexivity | intros _]). apply IH.
    + repeat (apply quiet_bind; [reflexivity | intros _]). apply IH.
    + reflexivity.
Qed.

Lemma setup_quiet (args : Args) (env : Env) : quiet (setup args env).
Proof.
  unfold setup.
  do 3 (apply quiet_bind; [apply quiet_lift | intros ?]).
  do 3 (apply quiet_bind; [reflexivity | intros ?]).
  apply quiet_bind; [apply import_loop_quiet | intros ns].
  apply quiet_bind; [reflexivity | intros ?].
  apply quiet_bind; [apply quiet_lift | intros ?].
  apply quiet_bind.
  { destruct (Get_rank env =? 0); [|apply quiet_ret].
    apply quiet_bind; [reflexivity | intros ?].
    do 2 (apply quiet_bind; [apply quiet_lift | intros ?]).
    apply quiet_ret. }
  intros ve.
  apply quiet_bind; [apply quiet_need | intros ?].
  apply quiet_bind; [reflexivity | intros ?].
  apply quiet_ret.
Qed.

(** The loop makes at most one retry per element of [range(10)]. *)
Lemma import_loop_bounded (env : Env) (tries : list nat) (ns : names) :
  (retries (snd (import_loop env tries ns)) <= List.length tries)%nat.
Proof.
  revert ns. induction tries as [| k rest IH]; intros ns; simpl.
  - apply Nat.le_refl.
  - destruct (import_keras env k); simpl; try apply Nat.le_0_l.
    + specialize (IH ns). unfold bind, emit. simpl.
      destruct (fst (import_loop env rest ns)); simpl;
        unfold retries in *; simpl; lia.
    + set (ns1 := {| has_model_from_json := true; has_cbks := has_cbks ns |}).
      specialize (IH ns1). unfold bind, emit. simpl.
      destruct (fst (import_loop env rest ns1)); simpl;
        unfold retries in *; simpl; lia.
Qed.

(** If every attempt ends in [except ValueError], the loop runs to the end
    of its range and falls through with [cbks] unbound. *)
Lemma import_loop_exhausted (env : Env) (tries : list nat) (ns : names) :
  (forall k, In k tries -> import_fails (import_keras env k) = true) ->
  has_cbks ns = false ->
  exists ns' tr,
    import_loop env tries ns = (inr ns', tr) /\
    has_cbks ns' = false /\
    retries tr = List.length tries.
Proof.
  revert ns. induction tries as [| k rest IH]; intros ns Hall Hns; simpl.
  - exists ns, []. auto.
  - assert (Hk := Hall k (or_introl eq_refl)).
    assert (Hrest : forall j, In j rest -> import_fails (import_keras env j) = true)
      by (intros j Hj; apply Hall; right; assumption).
    destruct (import_keras env k); try discriminate.
    + destruct (IH ns Hrest Hns) as (ns' & tr & E & Hc & Hn).
      exists ns'. eexists. unfold bind, emit. rewrite E. simpl.
      split; [reflexivity|]. split; [assumption|].
      unfold retries in *. simpl. rewrite Hn. reflexivity.
    + destruct (IH {| has_model_from_json := true; has_cbks := has_cbks ns |}
                  Hrest Hns) as (ns' & tr & E & Hc & Hn).
      exists ns'. eexists. unfold bind, emit. rewrite E. simpl.
      split; [reflexivity|]. split; [assumption|].
      unfold retries in *. simpl. rewrite Hn. reflexivity.
Qed.

Lemma range_lt (n k : nat) : In k (range n) -> (k < n)%nat.
Proof. unfold range. rewrite in_seq. lia. Qed.

(** Without [cbks] the setup cannot complete. *)
Lemma setup_fails_without_cbks (args : Args) (env : Env) :
  (forall k, (k < 10)%nat -> import_fails (import_keras env k) = true) ->
  fails (setup args env).
Proof.
  intros Hall.
  destruct (import_loop_exhausted env (range 10) no_names) as (ns' & tr & E & Hc & _).
  { intros k Hk. apply Hall. now apply range_lt. }
  { reflexivity. }
  unfold setup.
  do 6 (apply fails_bind; intros ? _).
  apply fails_bind. intros ns Hns.
  change {| has_model_from_json := false; has_cbks := false |} with no_names in Hns.
  rewrite E in Hns. simpl in Hns. inversion Hns; subst ns.
  do 3 (apply fails_bind; intros ? _).
  unfold fails, bind. rewrite Hc. simpl.
  exists (NameError "cbks"). reflexivity.
Qed.

Lemma main_fails_with_setup (args : Args) (env : Env) :
  fails (setup args env) ->
  fails (main args env) /\ snd (main args env) = snd (setup args env).
Proof.
  intros [e He]. unfold main. split.
  - exists e. now apply bind_fst_err.
  - now apply bind_snd_err with (e := e).
Qed.

(** What the run does after an exhausted budget when the collaborators
    called after the loop answer: the data set is built (and counted on
    rank 0) and the run ends at the first use of [cbks]. *)
Lemma setup_after_exhausted_budget (args : Args) (env : Env) tl vl dev :
  (forall k, (k < 10)%nat -> import_fails (import_keras env k) = true) ->
  open_read env (train_data args) = inr tl ->
  open_read env (val_data args) = inr vl ->
  get_device env (masters args) (max_gpus args) = inr dev ->
  H5Data env (map strip tl) (batch args) = inr tt ->
  (Get_rank env = 0 -> exists c, count_data env = inr c /\ batch args <> 0) ->
  fst (setup args env) = inl (NameError "cbks") /\
  In (EvH5Data (map strip tl) (batch args) (features_name args) (labels_name args))
     (snd (setup args env)).
Proof.
  intros Hall H1 H2 H3 H4 H5.
  destruct (import_loop_exhausted env (range 10) no_names) as (ns' & tr & E & Hc & _).
  { intros k Hk. apply Hall. now apply range_lt. }
  { reflexivity. }
  unfold setup, bind, lift, emit, ret, need.
  rewrite H1. cbn [fst snd app]. rewrite H2. cbn [fst snd app].
  rewrite H3. cbn [fst snd app].
  change {| has_model_from_json := false; has_cbks := false |} with no_names.
  rewrite E. cbn [fst snd app]. rewrite H4. cbn [fst snd app].
  rewrite Hc.
  destruct (Get_rank env =? 0) eqn:Hr.
  - apply Z.eqb_eq in Hr. destruct (H5 Hr) as (c & Hcount & Hb).
    rewrite Hcount. cbn [fst snd app].
    unfold derive_validate_every, py_int_div.
    destruct (batch args =? 0) eqn:Hz; [apply Z.eqb_eq in Hz; contradiction|].
    cbn [fst snd app]. split; [reflexivity|].
    repeat (rewrite in_app_iff || cbn [In]). auto 20.
  - cbn [fst snd app]. split; [reflexivity|].
    repeat (rewrite in_app_iff || cbn [In]). auto 20.
Qed.

(** C8, the claim as it is written, fails: with an import that raises
    [ValueError] on every attempt, the loop ends normally after the tenth
    failure and the statements after it are executed (the data set is
    constructed and counted). *)
Lemma import_budget_exhausted_run_continues :
  (forall k, (k < 10)%nat ->
     import_fails (import_keras Scenario.env_keras_down k) = true) /\
  fst (import_loop Scenario.env_keras_down (range 10) no_names) = inr no_names /\
  filter is_h5data (snd (main Scenario.args0 Scenario.env_keras_down))
    = [EvH5Data ["train.txt"] 100 "features" "labels"] /\
  In EvCountData (snd (main Scenario.args0 Scenario.env_keras_down)) /\
  ~ (forall env,
        (forall k, (k < 10)%nat -> import_fails (import_keras env k) = true) ->
        fails (import_loop env (range 10) no_names)).
Proof.
  split; [intros; reflexivity|].
  split; [reflexivity|].
  split; [reflexivity|].
  split; [vm_compute; tauto|].
  intros H. destruct (H Scenario.env_keras_down) as [e He].
  - intros; reflexivity.
  - vm_compute in He. discriminate.
Qed.

(** C8, amended: the loop makes exactly its 10 attempts when all of them
    end in [ValueError], and then falls through without raising, leaving
    [cbks] unbound.  The driver goes on; the run can only end in an
    uncaught exception, raised before any call on the manager.  When the
    calls that follow the loop succeed the data set has been built by then
    and the exception is the [NameError] of the first use of [cbks]. *)
Theorem import_budget_exhausted (args : Args) (env : Env) :
  (forall k, (k < 10)%nat -> import_fails (import_keras env k) = true) ->
  (exists ns tr,
      import_loop env (range 10) no_names = (inr ns, tr) /\
      has_cbks ns = false /\
      retries tr = 10%nat) /\
  fails (main args env) /\
  quiet (main args env) /\
  (forall tl vl dev,
      open_read env (train_data args) = inr tl ->
      open_read env (val_data args) = inr vl ->
      get_device env (masters args) (max_gpus args) = inr dev ->
      H5Data env (map strip tl) (batch args) = inr tt ->
      (Get_rank env = 0 -> exists c, count_data env = inr c /\ batch args <> 0) ->
      fst (main args env) = inl (NameError "cbks") /\
      In (EvH5Data (map strip tl) (batch args) (features_name args)
                   (labels_name args))
         (snd (main args env))).
Proof.
  intros Hall.
  assert (Hf := setup_fails_without_cbks args env Hall).
  destruct (main_fails_with_setup args env Hf) as [Hm Hs].
  split; [|split; [|split]].
  - destruct (import_loop_exhausted env (range 10) no_names) as (ns' & tr & E & Hc & Hn).
    { intros k Hk. apply Hall. now apply range_lt. }
    { reflexivity. }
    exists ns', tr. auto.
  - assumption.
  - unfold quiet. rewrite Hs. apply setup_quiet.
  - intros tl vl dev H1 H2 H3 H4 H5.
    destruct (setup_after_exhausted_budget args env tl vl dev Hall H1 H2 H3 H4 H5)
      as [He Hin].
    rewrite Hs. split; [|assumption].
    unfold main. now apply bind_fst_err.
Qed.

Lemma import_budget_exhausted_witness :
  (exists ns tr,
      import_loop Scenario.env_keras_down (range 10) no_names = (inr ns, tr) /\
      has_cbks ns = false /\
      retries tr = 10%nat) /\
  fails (main Scenario.args0 Scenario.env_keras_down) /\
  quiet (main Scenario.args0 Scenario.env_keras_down) /\
  (forall tl vl dev,
      open_read Scenario.env_keras_down (train_data Scenario.args0) = inr tl ->
      open_read Scenario.env_keras_down (val_data Scenario.args0) = inr vl ->
      get_device Scenario.env_keras_down (masters Scenario.args0)
                 (max_gpus Scenario.args0) = inr dev ->
      H5Data Scenario.env_keras_down (map strip tl) (batch Scenario.args0) = inr tt ->
      (Get_rank Scenario.env_keras_down = 0 ->
       exists c, count_data Scenario.env_keras_down = inr c /\
                 batch Scenario.args0 <> 0) ->
      fst (main Scenario.args0 Scenario.env_keras_down) = inl (NameError "cbks") /\
      In (EvH5Data (map strip tl) (batch Scenario.args0)
                   (features_name Scenario.args0) (labels_name Scenario.args0))
         (snd (main Scenario.args0 Scenario.env_keras_down))).
Proof.
  apply (import_budget_exhausted Scenario.args0 Scenario.env_keras_down).
  intros k Hk. reflexivity.
Defined.

(** Whatever the imports do, the loop sleeps at most 10 times. *)
Lemma import_attempts_bounded (env : Env) (ns : names) :
  (retries (snd (import_loop env (range 10) ns)) <= 10)%nat.
Proof. apply (import_loop_bounded env (range 10) ns). Qed.

(** *** Construction of the manager *)

Lemma quiet_no_training (tr : list event) :
  manager_calls tr = [] -> filter is_training tr = [].
Proof.
  induction tr as [| ev tr IH]; [reflexivity|].
  unfold manager_calls. simpl.
  destruct ev; simpl; try discriminate; intros H; apply IH; exact H.
Qed.

Lemma build_rejects (size m : Z) :
  m <= 0 \/ size <= m -> Topology.build size m = inl ConfigurationError.
Proof.
  intros H. unfold Topology.build.
  destruct (m <=? 0) eqn:E1; [reflexivity|].
  destruct (size <=? m) eqn:E2; [reflexivity|].
  apply Z.leb_gt in E1. apply Z.leb_gt in E2. lia.
Qed.

Lemma build_accepts (size m : Z) :
  0 < m < size ->
  Topology.build size m
    = inr {| Topology.total := Z.to_nat size; Topology.groups := Z.to_nat m |}.
Proof.
  intros H. unfold Topology.build.
  destruct (m <=? 0) eqn:E1; [apply Z.leb_le in E1; lia|].
  destruct (size <=? m) eqn:E2; [apply Z.leb_le in E2; lia|].
  reflexivity.
Qed.

(** C7: with the manager's construction as the specification describes it,
    a master count that is at most 0 or at least the process count makes the
    construction raise [ConfigurationError]; the driver does not catch it,
    so the run ends there and neither [set_model_info] nor [train] is
    called. *)
Theorem bad_master_count_stops_before_training (args : Args) (env : Env) :
  (forall size m, MPIManager env size m = Topology.MPIManager_init size m) ->
  masters args <= 0 \/ Get_size env <= masters args ->
  Topology.build (Get_size env) (masters args) = inl ConfigurationError /\
  Topology.MPIManager_init (Get_size env) (masters args) = inl ConfigurationError /\
  fails (main args env) /\
  filter is_training (snd (main args env)) = [] /\
  (forall tl vl ns ve tr,
      setup args env = (inr (tl, vl, ns, ve), tr) ->
      main args env
        = (inl ConfigurationError,
           tr ++ [EvMPIManager (epochs args) tl vl (masters args)
                               (synchronous args)])).
Proof.
  intros Hctor Hbad.
  assert (Hb := build_rejects _ _ Hbad).
  assert (Hi : Topology.MPIManager_init (Get_size env) (masters args)
               = inl ConfigurationError)
    by (unfold Topology.MPIManager_init; rewrite Hb; reflexivity).
  assert (Hmain : forall tl vl ns ve tr,
             setup args env = (inr (tl, vl, ns, ve), tr) ->
             main args env
             = (inl ConfigurationError,
                tr ++ [EvMPIManager (epochs args) tl vl (masters args)
                                    (synchronous args)])).
  { intros tl vl ns ve tr Hs. unfold main. rewrite Hs.
    unfold bind, lift, emit. cbn [fst snd app]. rewrite Hctor, Hi.
    cbn [fst snd app]. reflexivity. }
  split; [assumption|]. split; [assumption|].
  destruct (setup args env) as [[e | [[[tl vl] ns] ve]] tr] eqn:Hs.
  - assert (Hf : fails (setup args env)) by (exists e; rewrite Hs; reflexivity).
    destruct (main_fails_with_setup args env Hf) as [Hm Ht].
    split; [assumption|]. split.
    + rewrite Ht. apply quiet_no_training. apply setup_quiet.
    + intros; discriminate.
  - rewrite (Hmain tl vl ns ve tr eq_refl).
    split; [exists ConfigurationError; reflexivity|]. split.
    + cbn [snd]. rewrite filter_app. 
      assert (Hq := setup_quiet args env). unfold quiet in Hq. rewrite Hs in Hq.
      rewrite (quiet_no_training tr Hq). reflexivity.
    + intros tl' vl' ns' ve' tr' H. inversion H; subst. reflexivity.
Qed.

Lemma bad_master_count_stops_before_training_witness :
  Topology.build (Get_size Scenario.env_checked)
                 (masters Scenario.args_three_masters) = inl ConfigurationError /\
  Topology.MPIManager_init (Get_size Scenario.env_checked)
                 (masters Scenario.args_three_masters) = inl ConfigurationError /\
  fails (main Scenario.args_three_masters Scenario.env_checked) /\
  filter is_training (snd (main Scenario.args_three_masters Scenario.env_checked))
    = [] /\
  (forall tl vl ns ve tr,
      setup Scenario.args_three_masters Scenario.env_checked
        = (inr (tl, vl, ns, ve), tr) ->
      main Scenario.args_three_masters Scenario.env_checked
        = (inl ConfigurationError,
           tr ++ [EvMPIManager (epochs Scenario.args_three_masters) tl vl
                               (masters Scenario.args_three_masters)
                               (synchronous Scenario.args_three_masters)])).
Proof.
  apply (bad_master_count_stops_before_training
           Scenario.args_three_masters Scenario.env_checked).
  - intros size m. reflexivity.
  - right. vm_compute. discriminate.
Defined.

(** * Properties of the topology *)

Lemma div_mod_succ (w m : nat) :
  (0 < m)%nat ->
  (S (w mod m) = m /\ S w / m = S (w / m) /\ S w mod m = 0)%nat \/
  (S (w mod m) < m /\ S w / m = w / m /\ S w mod m = S (w mod m))%nat.
Proof.
  intros Hm.
  assert (Hlt : (w mod m < m)%nat) by (apply Nat.mod_upper_bound; lia).
  assert (Heq : w = (m * (w / m) + w mod m)%nat) by (apply Nat.div_mod_eq).
  destruct (Nat.eq_dec (S (w mod m)) m) as [E | E].
  - left. split; [assumption|].
    assert (H1 : S w = (m * S (w / m) + 0)%nat) by nia.
    split.
    + symmetry. apply (Nat.div_unique (S w) m (S (w / m)) 0); [lia | exact H1].
    + symmetry. apply (Nat.mod_unique (S w) m (S (w / m)) 0); [lia | exact H1].
  - right. split; [lia|].
    assert (H1 : S w = (m * (w / m) + S (w mod m))%nat) by nia.
    split.
    + symmetry. apply (Nat.div_unique (S w) m (w / m) (S (w mod m))); [lia | exact H1].
    + symmetry. apply (Nat.mod_unique (S w) m (w / m) (S (w mod m))); [lia | exact H1].
Qed.

(** How many of the first [w] naturals fall in the residue class [g]. *)
Lemma residue_class_size (m g w : nat) :
  (0 < m)%nat -> (g < m)%nat ->
  List.length (filter (fun i => Nat.eqb (i mod m) g) (seq 0 w))
    = (w / m + (if (g <? w mod m)%nat then 1 else 0))%nat.
Proof.
  intros Hm Hg. induction w as [| w IH].
  - simpl. rewrite Nat.Div0.div_0_l, Nat.Div0.mod_0_l. reflexivity.
  - rewrite seq_S, filter_app, length_app, IH. simpl.
    destruct (div_mod_succ w m Hm) as [(E & Hd & Hr) | (E & Hd & Hr)];
      rewrite Hd, Hr.
    + assert (Hw : (w mod m = m - 1)%nat) by lia. rewrite Hw.
      destruct (Nat.eqb_spec (m - 1) g) as [Heq | Hne].
      * subst g. replace (m - 1 <? m - 1)%nat with false
          by (symmetry; apply Nat.ltb_ge; lia). simpl. lia.
      * replace (g <? m - 1)%nat with true
          by (symmetry; apply Nat.ltb_lt; lia). simpl. lia.
    + destruct (Nat.eqb_spec (w mod m) g) as [Heq | Hne].
      * subst g. rewrite Nat.ltb_irrefl.
        replace (w mod m <? S (w mod m))%nat with true
          by (symmetry; apply Nat.ltb_lt; lia). simpl. lia.
      * destruct (Nat.ltb_spec g (w mod m)).
        -- replace (g <? S (w mod m))%nat with true
             by (symmetry; apply Nat.ltb_lt; lia). simpl. lia.
        -- replace (g <? S (w mod m))%nat with false
             by (symmetry; apply Nat.ltb_ge; lia). simpl. lia.
Qed.

Lemma filter_seq_shift (f : nat -> bool) (s w : nat) :
  List.length (filter f (seq s w))
    = List.length (filter (fun i => f (s + i)%nat) (seq 0 w)).
Proof.
  induction w as [| w IH]; [reflexivity|].
  rewrite !seq_S, !filter_app, !length_app, IH. simpl.
  destruct (f (s + w)%nat); reflexivity.
Qed.

Lemma filter_none {A} (f : A -> bool) (l : list A) :
  (forall x, In x l -> f x = false) -> filter f l = [].
Proof.
  induction l as [| a l IH]; intros H; [reflexivity|].
  simpl. rewrite (H a (or_introl eq_refl)). apply IH.
  intros x Hx. apply H. right. assumption.
Qed.

Lemma filter_ext_length {A} (f g : A -> bool) (l : list A) :
  (forall x, In x l -> f x = g x) ->
  List.length (filter f l) = List.length (filter g l).
Proof.
  induction l as [| a l IH]; intros H; [reflexivity|].
  simpl. rewrite (H a (or_introl eq_refl)).
  assert (IH' : List.length (filter f l) = List.length (filter g l))
    by (apply IH; intros x Hx; apply H; right; assumption).
  destruct (g a); simpl; rewrite IH'; reflexivity.
Qed.

Section RoundRobin.

Variables M W : nat.
Hypothesis M_pos : (1 <= M)%nat.

Let t : Topology.topology := {| Topology.total := M + W; Topology.groups := M |}.

Lemma role_of_master (r : nat) :
  (r < M)%nat -> Topology.role_of t r = Some Topology.Master.
Proof.
  intros H. unfold Topology.role_of. simpl.
  replace (r <? M)%nat with true by (symmetry; apply Nat.ltb_lt; lia).
  reflexivity.
Qed.

Lemma role_of_worker (r : nat) :
  (M <= r < M + W)%nat ->
  Topology.role_of t r = Some (Topology.Worker ((r - M) mod M)).
Proof.
  intros H. unfold Topology.role_of. simpl.
  replace (r <? M)%nat with false by (symmetry; apply Nat.ltb_ge; lia).
  replace (r <? M + W)%nat with true by (symmetry; apply Nat.ltb_lt; lia).
  reflexivity.
Qed.

Lemma role_of_outside (r : nat) :
  (M + W <= r)%nat -> Topology.role_of t r = None.
Proof.
  intros H. unfold Topology.role_of. simpl.
  replace (r <? M)%nat with false by (symmetry; apply Nat.ltb_ge; lia).
  replace (r <? M + W)%nat with false by (symmetry; apply Nat.ltb_ge; lia).
  reflexivity.
Qed.

Lemma in_owned (g r : nat) :
  In r (Topology.owned t g) <-> Topology.role_of t r = Some (Topology.Worker g).
Proof.
  unfold Topology.owned. rewrite filter_In, in_seq. simpl. split.
  - intros [_ H]. destruct (Topology.role_of t r) as [[| o] |]; try discriminate.
    apply Nat.eqb_eq in H. subst. reflexivity.
  - intros H. split.
    + destruct (Nat.lt_ge_cases r (M + W)) as [|Hge]; [lia|].
      rewrite (role_of_outside r Hge) in H. discriminate.
    + rewrite H. apply Nat.eqb_refl.
Qed.

Lemma owned_size (g : nat) :
  (g < M)%nat ->
  List.length (Topology.owned t g)
    = (W / M + (if (g <? W mod M)%nat then 1 else 0))%nat.
Proof.
  intros Hg. unfold Topology.owned.
  change (Topology.total t) with (M + W)%nat.
  rewrite seq_app, filter_app, length_app. simpl.
  rewrite filter_none.
  2:{ intros r Hr. apply in_seq in Hr. rewrite role_of_master by lia. reflexivity. }
  simpl. rewrite filter_seq_shift.
  rewrite (filter_ext_length _ (fun i => Nat.eqb (i mod M) g)).
  - apply residue_class_size; lia.
  - intros i Hi. apply in_seq in Hi. rewrite role_of_worker by lia.
    replace (M + i - M)%nat with i by lia. reflexivity.
Qed.

Lemma owned_balanced (g1 g2 : nat) :
  (g1 < M)%nat -> (g2 < M)%nat ->
  (List.length (Topology.owned t g1) <= List.length (Topology.owned t g2) + 1)%nat.
Proof.
  intros H1 H2. rewrite !owned_size by assumption.
  destruct (g1 <? W mod M)%nat, (g2 <? W mod M)%nat; lia.
Qed.

Lemma owned_nodup (g : nat) : NoDup (Topology.owned t g).
Proof. unfold Topology.owned. apply NoDup_filter. apply seq_NoDup. Qed.

End RoundRobin.

Lemma build_round_robin (M W : nat) :
  (1 <= W)%nat -> (1 <= M)%nat ->
  Topology.build (Z.of_nat (M + W)) (Z.of_nat M)
    = inr {| Topology.total := M + W; Topology.groups := M |}.
Proof.
  intros HW HM. rewrite build_accepts by lia.
  rewrite !Nat2Z.id. reflexivity.
Qed.

(** C6: for [W >= 1] workers and [M >= 1] master groups (so that
    [M < M + W], the process count) the topology is built; every rank below
    the process count is a master or a worker with an owner among the [M]
    masters; a worker lies in the group of its owner and in no other; the
    groups hold workers only, without repetition; and two group sizes
    differ by at most 1. *)
Theorem topology_partitions_workers (W M : nat) :
  (1 <= W)%nat -> (1 <= M)%nat ->
  exists t,
    Topology.build (Z.of_nat (M + W)) (Z.of_nat M) = inr t /\
    (forall r, (r < M)%nat -> Topology.role_of t r = Some Topology.Master) /\
    (forall r, (M <= r < M + W)%nat ->
       exists g, (g < M)%nat /\
                 Topology.role_of t r = Some (Topology.Worker g) /\
                 forall g', In r (Topology.owned t g') <-> g' = g) /\
    (forall g r, In r (Topology.owned t g) ->
       (g < M)%nat /\ (M <= r < M + W)%nat /\
       Topology.role_of t r = Some (Topology.Worker g)) /\
    (forall g, NoDup (Topology.owned t g)) /\
    (forall g1 g2, (g1 < M)%nat -> (g2 < M)%nat ->
       (List.length (Topology.owned t g1)
          <= List.length (Topology.owned t g2) + 1)%nat).
Proof.
  intros HW HM.
  exists {| Topology.total := M + W; Topology.groups := M |}.
  split; [apply build_round_robin; assumption|].
  split; [intros r Hr; apply role_of_master; assumption|].
  split; [|split; [|split]].
  - intros r Hr. exists ((r - M) mod M)%nat.
    assert (Hrole := role_of_worker M W HM r Hr). cbv zeta in Hrole.
    split; [apply Nat.mod_upper_bound; lia|]. split; [assumption|].
    intros g'. rewrite (in_owned M W HM g' r). rewrite Hrole. split.
    + intros H. inversion H. reflexivity.
    + intros ->. reflexivity.
  - intros g r Hin. apply (in_owned M W HM g r) in Hin.
    destruct (Nat.lt_ge_cases r M) as [Hlt | Hge].
    + rewrite (role_of_master M W HM r Hlt) in Hin. discriminate.
    + destruct (Nat.lt_ge_cases r (M + W)) as [Hlt | Hout].
      * assert (Hrole := role_of_worker M W HM r (conj Hge Hlt)). cbv zeta in Hrole.
        rewrite Hrole in Hin. inversion Hin; subst.
        split; [apply Nat.mod_upper_bound; lia|]. split; [lia|]. assumption.
      * rewrite (role_of_outside M W HM r Hout) in Hin. discriminate.
  - apply owned_nodup.
  - intros g1 g2 H1 H2. apply (owned_balanced M W HM g1 g2 H1 H2).
Qed.

Lemma topology_partitions_workers_witness :
  exists t,
    Topology.build (Z.of_nat (2 + 5)) (Z.of_nat 2) = inr t /\
    (forall r, (r < 2)%nat -> Topology.role_of t r = Some Topology.Master) /\
    (forall r, (2 <= r < 2 + 5)%nat ->
       exists g, (g < 2)%nat /\
                 Topology.role_of t r = Some (Topology.Worker g) /\
                 forall g', In r (Topology.owned t g') <-> g' = g) /\
    (forall g r, In r (Topology.owned t g) ->
       (g < 2)%nat /\ (2 <= r < 2 + 5)%nat /\
       Topology.role_of t r = Some (Topology.Worker g)) /\
    (forall g, NoDup (Topology.owned t g)) /\
    (forall g1 g2, (g1 < 2)%nat -> (g2 < 2)%nat ->
       (List.length (Topology.owned t g1)
          <= List.length (Topology.owned t g2) + 1)%nat).
Proof.
  apply (topology_partitions_workers 5 2); lia.
Defined.

(** The groups of seven processes with two masters. *)
Example topology_seven_processes :
  match Topology.build 7 2 with
  | inr t => map (Topology.owned t) [0; 1]%nat = [[2; 4; 6]; [3; 5]]%nat
  | inl _ => False
  end.
Proof. reflexivity. Qed.

(** * Properties of the worker loop *)

Section WorkerLoop.

Variable batch : Type.
Variable local_step : snapshot -> batch -> snapshot.
Variable sync : nat -> snapshot -> snapshot.
Variable sync_every : nat.

Let step := Worker.process_batch batch local_step sync sync_every.
Let run := Worker.run_epoch batch local_step sync sync_every.

Let due := Worker.due sync_every.

Lemma process_batch_round (s : Worker.state) (b : batch) :
  Worker.round (step s b) = S (Worker.round s).
Proof.
  unfold step, Worker.process_batch.
  destruct (Nat.eqb (S (Worker.round s) mod sync_every) 0); reflexivity.
Qed.

Lemma process_batch_log (s : Worker.state) (b : batch) :
  Worker.sync_log (step s b)
    = Worker.sync_log s ++ filter due [S (Worker.round s)].
Proof.
  unfold step, Worker.process_batch, due, Worker.due. simpl.
  destruct (Nat.eqb (S (Worker.round s) mod sync_every) 0); simpl.
  - reflexivity.
  - rewrite app_nil_r. reflexivity.
Qed.

Lemma run_epoch_round (bs : list batch) (s : Worker.state) :
  Worker.round (run s bs) = (Worker.round s + List.length bs)%nat.
Proof.
  revert s. induction bs as [| b bs IH]; intros s; simpl.
  - lia.
  - unfold run in *. simpl. rewrite IH.
    fold (step s b). rewrite process_batch_round. lia.
Qed.

Lemma run_epoch_log (bs : list batch) (s : Worker.state) :
  Worker.sync_log (run s bs)
    = Worker.sync_log s
      ++ filter due (seq (S (Worker.round s)) (List.length bs)).
Proof.
  revert s. induction bs as [| b bs IH]; intros s; simpl.
  - rewrite app_nil_r. reflexivity.
  - unfold run in *. simpl. rewrite IH. fold (step s b).
    rewrite process_batch_round, process_batch_log. simpl filter at 1.
    rewrite <- app_assoc. f_equal.
    destruct (due (S (Worker.round s))); reflexivity.
Qed.

End WorkerLoop.

(** C5: the round counter goes up by exactly one with every batch, and the
    worker synchronises at a round exactly when that round is a multiple of
    [sync_every]: the rounds logged in an epoch are the multiples among the
    rounds of that epoch, in order. *)
Theorem round_counter_and_sync_cadence
    (batch : Type) (local_step : snapshot -> batch -> snapshot)
    (sync : nat -> snapshot -> snapshot) (sync_every : nat)
    (s : Worker.state) (bs : list batch) :
  (0 < sync_every)%nat ->
  let run := Worker.run_epoch batch local_step sync sync_every in
  Worker.round (run s bs) = (Worker.round s + List.length bs)%nat /\
  (forall k, (k < List.length bs)%nat ->
     Worker.round (run s (firstn (S k) bs))
       = S (Worker.round (run s (firstn k bs)))) /\
  (exists synced,
     Worker.sync_log (run s bs) = Worker.sync_log s ++ synced /\
     synced = filter (fun r => Nat.eqb (r mod sync_every) 0)
                     (seq (S (Worker.round s)) (List.length bs)) /\
     forall r, In r synced <->
               (Worker.round s < r <= Worker.round s + List.length bs)%nat /\
               exists q, r = (q * sync_every)%nat).
Proof.
  intros Hpos run. split; [|split].
  - apply run_epoch_round.
  - intros k Hk. unfold run. rewrite !run_epoch_round.
    rewrite !length_firstn. lia.
  - eexists. split; [apply run_epoch_log|]. split; [reflexivity|].
    intros r. unfold Worker.due. rewrite filter_In, in_seq, Nat.eqb_eq.
    rewrite Nat.Lcm0.mod_divide. unfold Nat.divide.
    split; intros [H1 H2]; (split; [lia | assumption]).
Qed.

Lemma round_counter_and_sync_cadence_witness :
  let run := Worker.run_epoch nat (fun p _ => p) (fun _ p => p) 3 in
  let s := {| Worker.round := 0; Worker.params := [];
              Worker.sync_log := [] |} in
  let bs := [1; 2; 3; 4; 5; 6; 7]%nat in
  Worker.round (run s bs) = (Worker.round s + List.length bs)%nat /\
  (forall k, (k < List.length bs)%nat ->
     Worker.round (run s (firstn (S k) bs))
       = S (Worker.round (run s (firstn k bs)))) /\
  (exists synced,
     Worker.sync_log (run s bs) = Worker.sync_log s ++ synced /\
     synced = filter (fun r => Nat.eqb (r mod 3) 0)
                     (seq (S (Worker.round s)) (List.length bs)) /\
     forall r, In r synced <->
               (Worker.round s < r <= Worker.round s + List.length bs)%nat /\
               exists q, r = (q * 3)%nat).
Proof.
  apply (round_counter_and_sync_cadence nat (fun p _ => p) (fun _ p => p) 3
           {| Worker.round := 0; Worker.params := []; Worker.sync_log := [] |}
           [1; 2; 3; 4; 5; 6; 7]%nat).
  lia.
Defined.

(** Seven batches with [sync_every = 3]: syncs after the third and sixth. *)
Example worker_seven_batches :
  Worker.sync_log
    (Worker.run_epoch nat (fun p _ => p) (fun _ p => p) 3
       {| Worker.round := 0; Worker.params := []; Worker.sync_log := [] |}
       [1; 2; 3; 4; 5; 6; 7]%nat) = [3; 6]%nat.
Proof. reflexivity. Qed.

(** * Properties of the synchronisation rules *)

(** The elastic exchange on one scalar parameter, written out. *)
Lemma easgd_exchange_scalar (c : Easgd.config) (w m : Q) :
  Easgd.exchange c [w] [m]
    = ( [ (w - Easgd.elastic_lr c * Easgd.elastic_force c * (w - m))%Q ],
        [ (Easgd.elastic_lr c * Easgd.elastic_force c * (w - m))%Q ],
        [ (m + Easgd.elastic_lr c * Easgd.elastic_force c * (w - m))%Q ] ).
Proof. reflexivity. Qed.

(** What the worker gives up the master gains. *)
Lemma easgd_exchange_conserves (c : Easgd.config) (w m : Q) :
  let '(w', _, m') := Easgd.exchange c [w] [m] in
  snapshot_eq (vadd w' m') (vadd [w] [m]).
Proof.
  rewrite easgd_exchange_scalar. repeat constructor. ring.
Qed.

(** With [elastic_force = 0] nothing moves. *)
Lemma easgd_zero_force (lr w m : Q) :
  let '(w', _, m') :=
    Easgd.exchange {| Easgd.elastic_force := 0; Easgd.elastic_lr := lr |} [w] [m] in
  snapshot_eq w' [w] /\ snapshot_eq m' [m].
Proof.
  rewrite easgd_exchange_scalar. simpl.
  split; repeat constructor; ring.
Qed.

(** The other wording of section 4.3, a correction of
    [elastic_force * delta], puts 0.05 on the wire in the scenario. *)
Lemma easgd_scaled_correction_scenario :
  snapshot_eq (Easgd.scaled_correction Easgd.config0 [5%Q] [0%Q]) [(5 # 100)%Q].
Proof. repeat constructor. Qed.

(** C1: with [elastic_force = 0.1] and [elastic_lr = 1.0], a worker at 5.0
    and a master at 0.0, one sync leaves the worker at 4.5, puts +0.5 on the
    wire and leaves the master at 0.5; in general the worker subtracts
    [elastic_lr * elastic_force * (worker - master)] and the master adds the
    correction it receives. *)
Theorem easgd_scenario :
  (let '(worker, correction, master) :=
     Easgd.exchange Easgd.config0 [5%Q] [0%Q] in
   snapshot_eq worker [(45 # 10)%Q] /\
   snapshot_eq correction [(5 # 10)%Q] /\
   snapshot_eq master [(5 # 10)%Q]) /\
  (forall (c : Easgd.config) (w m : snapshot),
     let d := Easgd.elastic_delta c w m in
     Easgd.worker_sync c w m = (vsub w d, d) /\
     Easgd.exchange c w m = (vsub w d, d, Easgd.master_receive m d) /\
     Easgd.master_receive m d = vadd m d) /\
  (forall (c : Easgd.config) (w m : Q),
     Easgd.elastic_delta c [w] [m]
       = [ (Easgd.elastic_lr c * Easgd.elastic_force c * (w - m))%Q ]).
Proof.
  split; [|split].
  - simpl. repeat split; repeat constructor.
  - intros c w m d. repeat split.
  - reflexivity.
Qed.

Lemma remove_rank_in (x y : nat) (p : list nat) :
  In y (Sync.remove_rank x p) <-> In y p /\ y <> x.
Proof.
  unfold Sync.remove_rank. rewrite filter_In.
  rewrite Bool.negb_true_iff, Nat.eqb_neq. reflexivity.
Qed.

Lemma remove_rank_nodup (x : nat) (p : list nat) :
  NoDup p -> NoDup (Sync.remove_rank x p).
Proof. intros H. unfold Sync.remove_rank. now apply NoDup_filter. Qed.

Lemma remove_rank_perm (x : nat) (p : list nat) :
  NoDup p -> In x p -> Permutation p (x :: Sync.remove_rank x p).
Proof.
  intros Hnd Hin. apply NoDup_Permutation.
  - assumption.
  - constructor.
    + rewrite remove_rank_in. tauto.
    + now apply remove_rank_nodup.
  - intros y. simpl. rewrite remove_rank_in.
    destruct (Nat.eq_dec y x) as [-> | Hne]; [tauto|].
    split; [tauto|]. intros [H | H]; [congruence | tauto].
Qed.

Lemma existsb_sender (x : nat) (p : list nat) :
  In x p -> existsb (Nat.eqb x) p = true.
Proof.
  intros H. apply existsb_exists. exists x. split; [assumption|].
  apply Nat.eqb_refl.
Qed.

(** While it waits, the master takes one contribution from each pending
    worker, in any order, and moves on to aggregating with the last one. *)
Lemma receive_all_collects (arrivals : list Sync.contribution) :
  forall (pending : list nat) (received : list Sync.contribution)
         (ps : snapshot) (own : list nat),
    NoDup pending ->
    pending <> [] ->
    Permutation (map Sync.sender arrivals) pending ->
    Sync.receive_all
      {| Sync.params := ps;
         Sync.state := Sync.AwaitingWorkerUpdates pending received;
         Sync.owned := own |} arrivals
    = Some {| Sync.params := ps;
              Sync.state := Sync.Aggregating (received ++ arrivals);
              Sync.owned := own |}.
Proof.
  induction arrivals as [| c rest IH]; intros pending received ps own Hnd Hne Hp.
  - simpl in Hp. apply Permutation_nil in Hp. contradiction.
  - simpl in Hp.
    assert (Hin : In (Sync.sender c) pending)
      by (apply (Permutation_in _ Hp); left; reflexivity).
    assert (Hp' : Permutation (map Sync.sender rest)
                              (Sync.remove_rank (Sync.sender c) pending)).
    { apply Permutation_cons_inv with (a := Sync.sender c).
      eapply Permutation_trans; [exact Hp|].
      now apply remove_rank_perm. }
    assert (Hnd' := remove_rank_nodup (Sync.sender c) pending Hnd).
    simpl. unfold Sync.receive. simpl.
    rewrite (existsb_sender _ _ Hin).
    destruct (Sync.remove_rank (Sync.sender c) pending) as [| p0 pending'] eqn:Hrem.
    + apply Permutation_sym, Permutation_nil in Hp'.
      apply map_eq_nil in Hp'. subst rest. reflexivity.
    + rewrite (IH (p0 :: pending') (received ++ [c]) ps own Hnd');
        [| discriminate | assumption].
      rewrite <- app_assoc. reflexivity.
Qed.

(** In the two cases of the aggregation rule the average is the arithmetic
    mean, respectively the mean weighted by batch size. *)
Lemma average_cases (n : nat) (cs : list Sync.contribution) :
  (Sync.same_batch cs = true ->
   Sync.average n cs
     = vscale (1 / inject_Z (Z.of_nat (List.length cs)))%Q
              (vsum n (map Sync.delta cs))) /\
  (Sync.same_batch cs = false ->
   Sync.average n cs
     = vscale (1 / inject_Z (Sync.total_batch cs))%Q
              (vsum n (map (fun c => vscale (inject_Z (Sync.batch_size c))
                                            (Sync.delta c)) cs))).
Proof. unfold Sync.average. split; intros ->; reflexivity. Qed.

Lemma broadcast_overwrites (own : list nat) (new : snapshot)
    (workers : list (nat * snapshot)) (r : nat) (p : snapshot) :
  In (r, p)
     (map (fun w => if existsb (Nat.eqb (fst w)) own then (fst w, new) else w)
          workers) ->
  In r own -> p = new.
Proof.
  intros Hin Hown. apply in_map_iff in Hin. destruct Hin as ([r' p'] & Heq & _).
  simpl in Heq.
  destruct (existsb (Nat.eqb r') own) eqn:E.
  - inversion Heq. reflexivity.
  - inversion Heq; subst. rewrite (existsb_sender r own Hown) in E. discriminate.
Qed.

(** C2: in the scenario (parameter 0.0, deltas +1.0 and +3.0 from the two
    owned workers) the master ends the round at 2.0 and so do both workers
    after the broadcast.  In general, once every owned worker has
    contributed, in whatever order, the round completes, the master's
    snapshot has moved by the average of the contributions (arithmetic mean
    for equal batch sizes, batch-weighted mean otherwise) and every owned
    worker holds the master's new snapshot. *)
Theorem sync_round_mean :
  (exists m' workers',
     Sync.round Sync.master0 Sync.arrivals0 Sync.workers0 = Some (m', workers') /\
     snapshot_eq (Sync.params m') [2%Q] /\
     Forall (fun w => snapshot_eq (snd w) [2%Q]) workers' /\
     map fst workers' = [1; 2]%nat) /\
  (forall (m : Sync.master) (arrivals : list Sync.contribution)
          (workers : list (nat * snapshot)),
     Sync.state m = Sync.Idle ->
     Sync.owned m <> [] ->
     NoDup (Sync.owned m) ->
     Permutation (map Sync.sender arrivals) (Sync.owned m) ->
     exists m' workers',
       Sync.round m arrivals workers = Some (m', workers') /\
       Sync.state m' = Sync.Idle /\
       Sync.owned m' = Sync.owned m /\
       Sync.params m'
         = vadd (Sync.params m)
                (Sync.average (List.length (Sync.params m)) arrivals) /\
       (Sync.same_batch arrivals = true ->
        Sync.average (List.length (Sync.params m)) arrivals
          = vscale (1 / inject_Z (Z.of_nat (List.length arrivals)))%Q
                   (vsum (List.length (Sync.params m))
                         (map Sync.delta arrivals))) /\
       (Sync.same_batch arrivals = false ->
        Sync.average (List.length (Sync.params m)) arrivals
          = vscale (1 / inject_Z (Sync.total_batch arrivals))%Q
                   (vsum (List.length (Sync.params m))
                         (map (fun c => vscale (inject_Z (Sync.batch_size c))
                                               (Sync.delta c)) arrivals))) /\
       map fst workers' = map fst workers /\
       (forall r p, In (r, p) workers' -> In r (Sync.owned m) ->
                    p = Sync.params m')).
Proof.
  split.
  - eexists. eexists. split; [reflexivity|].
    split; [repeat constructor|]. split; [repeat constructor|reflexivity].
  - intros m arrivals workers Hidle Hne Hnd Hperm.
    destruct m as [ps st own]. simpl in *. subst st.
    unfold Sync.round, Sync.begin_round. simpl.
    destruct own as [| o own']; [contradiction|].
    rewrite (receive_all_collects arrivals (o :: own') [] ps (o :: own') Hnd Hne Hperm).
    simpl. eexists. eexists. split; [reflexivity|]. simpl.
    split; [reflexivity|]. split; [reflexivity|]. split; [reflexivity|].
    split; [apply average_cases|]. split; [apply average_cases|].
    split.
    + rewrite map_map. apply map_ext. intros [r p]. simpl.
      destruct (_ || _); reflexivity.
    + intros r p Hin Hown.
      apply (broadcast_overwrites (o :: own') _ workers r p Hin Hown).
Qed.

Lemma sync_round_mean_witness :
  exists m' workers',
    Sync.round Sync.master0 Sync.arrivals0 Sync.workers0 = Some (m', workers') /\
    Sync.state m' = Sync.Idle /\
    Sync.owned m' = Sync.owned Sync.master0 /\
    Sync.params m'
      = vadd (Sync.params Sync.master0)
             (Sync.average (List.length (Sync.params Sync.master0))
                           Sync.arrivals0) /\
    (Sync.same_batch Sync.arrivals0 = true ->
     Sync.average (List.length (Sync.params Sync.master0)) Sync.arrivals0
       = vscale (1 / inject_Z (Z.of_nat (List.length Sync.arrivals0)))%Q
                (vsum (List.length (Sync.params Sync.master0))
                      (map Sync.delta Sync.arrivals0))) /\
    (Sync.same_batch Sync.arrivals0 = false ->
     Sync.average (List.length (Sync.params Sync.master0)) Sync.arrivals0
       = vscale (1 / inject_Z (Sync.total_batch Sync.arrivals0))%Q
                (vsum (List.length (Sync.params Sync.master0))
                      (map (fun c => vscale (inject_Z (Sync.batch_size c))
                                            (Sync.delta c)) Sync.arrivals0))) /\
    map fst workers' = map fst Sync.workers0 /\
    (forall r p, In (r, p) workers' -> In r (Sync.owned Sync.master0) ->
                 p = Sync.params m').
Proof.
  apply (proj2 sync_round_mean Sync.master0 Sync.arrivals0 Sync.workers0).
  - reflexivity.
  - discriminate.
  - repeat constructor; simpl; intuition discriminate.
  - apply Permutation_refl.
Defined.

(** * Further properties of the two scripts *)

Import View.

(** ** Filtering the log of a computation *)

Lemma filter_bind {A B} (p : event -> bool) (m : M A) (k : A -> M B) :
  filter p (snd m) = [] ->
  (forall a, fst m = inr a -> filter p (snd (k a)) = []) ->
  filter p (snd (bind m k)) = [].
Proof.
  unfold bind. intros Hm Hk.
  destruct (fst m) as [e | a]; simpl; [assumption|].
  rewrite filter_app, Hm, (Hk a eq_refl). reflexivity.
Qed.

Lemma bind_lift_err {A B} (e : exn) (k : A -> M B) :
  bind (lift (inl e)) k = (inl e, []).
Proof. reflexivity. Qed.

Lemma bind_lift_ok {A B} (a : A) (k : A -> M B) :
  bind (lift (inr a)) k = k a.
Proof. unfold bind, lift. simpl. destruct (k a). reflexivity. Qed.

Lemma bind_emit {B} (ev : event) (k : unit -> M B) :
  bind (emit ev) k = (fst (k tt), ev :: snd (k tt)).
Proof. reflexivity. Qed.

Lemma bind_ret {A B} (a : A) (k : A -> M B) : bind (ret a) k = k a.
Proof. unfold bind, ret. simpl. destruct (k a). reflexivity. Qed.

Lemma bind_pair_ok {A B} (a : A) (t : list event) (k : A -> M B) :
  bind (inr a, t) k = (fst (k a), t ++ snd (k a)).
Proof. reflexivity. Qed.

(** ** The import loop *)

(** [k] failed attempts in a row cost [k] sleeps and lead to the rest of the
    range. *)
Lemma import_loop_skips (env : Env) (k : nat) :
  forall (n s : nat) (ns : names),
    (k <= n)%nat ->
    (forall j, (s <= j < s + k)%nat -> import_fails (import_keras env j) = true) ->
    exists ns' tr,
      retries tr = k /\
      List.length tr = (2 * k)%nat /\
      manager_calls tr = [] /\
      (has_cbks ns = false -> has_cbks ns' = false) /\
      import_loop env (seq s n) ns
        = bind (inr ns', tr) (fun x => import_loop env (seq (s + k) (n - k)) x).
Proof.
  induction k as [| k IH]; intros n s ns Hle Hall.
  - exists ns, []. rewrite Nat.add_0_r, Nat.sub_0_r.
    repeat split; auto. rewrite bind_pair_ok. simpl.
    destruct (import_loop env (seq s n) ns). reflexivity.
  - destruct n as [| n]; [lia|].
    assert (Hs : import_fails (import_keras env s) = true) by (apply Hall; lia).
    assert (Hrest : forall j, (S s <= j < S s + k)%nat ->
                              import_fails (import_keras env j) = true)
      by (intros j Hj; apply Hall; lia).
    simpl seq. simpl import_loop.
    replace (s + S k)%nat with (S s + k)%nat by lia.
    replace (S n - S k)%nat with (n - k)%nat by lia.
    destruct (import_keras env s); try discriminate.
    + destruct (IH n (S s) ns ltac:(lia) Hrest)
        as (ns' & tr & Hn & Hl & Hq & Hc & E).
      exists ns'.
      exists (EvPrint [PStr ("Unable to import keras. Trying again: "
                             ++ fmt_d s)%string]
              :: EvSleep (1 # 10) :: tr).
      rewrite E. rewrite !bind_emit, !bind_pair_ok.
      split; [|split; [|split; [|split; [exact Hc | reflexivity]]]].
      * unfold retries in *. simpl. rewrite Hn. reflexivity.
      * simpl. rewrite Hl. lia.
      * unfold manager_calls in *. simpl. exact Hq.
    + destruct (IH n (S s) {| has_model_from_json := true; has_cbks := has_cbks ns |}
                  ltac:(lia) Hrest) as (ns' & tr & Hn & Hl & Hq & Hc & E).
      exists ns'.
      exists (EvPrint [PStr ("Unable to import keras. Trying again: "
                             ++ fmt_d s)%string]
              :: EvSleep (1 # 10) :: tr).
      rewrite E. rewrite !bind_emit, !bind_pair_ok.
      split; [|split; [|split; [|split; [exact Hc | reflexivity]]]].
      * unfold retries in *. simpl. rewrite Hn. reflexivity.
      * simpl. rewrite Hl. lia.
      * unfold manager_calls in *. simpl. exact Hq.
Qed.

(** The loop stops at the first attempt that succeeds: it has slept once
    per failed attempt before it, both keras names are bound, and what later
    attempts would have done plays no role. *)
Theorem import_loop_first_success (env : Env) (k : nat) (ns : names) :
  (k < 10)%nat ->
  (forall j, (j < k)%nat -> import_fails (import_keras env j) = true) ->
  import_keras env k = ImportOk ->
  (exists tr,
     import_loop env (range 10) ns = (inr both_names, tr) /\
     retries tr = k /\ List.length tr = (2 * k)%nat) /\
  (forall env',
     (forall j, (j <= k)%nat -> import_keras env' j = import_keras env j) ->
     fst (import_loop env' (range 10) ns) = inr both_names /\
     retries (snd (import_loop env' (range 10) ns)) = k).
Proof.
  intros Hk Hfail Hok.
  assert (Hone : forall e,
             (forall j, (j <= k)%nat -> import_keras e j = import_keras env j) ->
             exists tr, import_loop e (range 10) ns = (inr both_names, tr) /\
                        retries tr = k /\ List.length tr = (2 * k)%nat).
  { intros e He.
    destruct (import_loop_skips e k 10 0 ns ltac:(lia))
      as (ns' & tr & Hn & Hl & _ & _ & E).
    { intros j Hj. rewrite He by lia. apply Hfail. lia. }
    unfold range. rewrite E. simpl (0 + k)%nat.
    destruct (10 - k)%nat as [| m] eqn:Hm; [lia|].
    simpl seq. simpl import_loop. rewrite (He k (Nat.le_refl k)), Hok.
    exists tr. rewrite bind_pair_ok. simpl. rewrite app_nil_r. auto. }
  split.
  - destruct (Hone env (fun j _ => eq_refl)) as (tr & E & Hn & Hl).
    exists tr. auto.
  - intros env' He. destruct (Hone env' He) as (tr & E & Hn & _).
    rewrite E. auto.
Qed.

Lemma import_loop_first_success_witness :
  (exists tr,
     import_loop (Runs.env_with Scenario.env0 0 3 Runs.flaky (train Scenario.env0))
                 (range 10) no_names = (inr both_names, tr) /\
     retries tr = 3%nat /\ List.length tr = (2 * 3)%nat) /\
  (forall env',
     (forall j, (j <= 3)%nat ->
        import_keras env' j
        = import_keras (Runs.env_with Scenario.env0 0 3 Runs.flaky
                                      (train Scenario.env0)) j) ->
     fst (import_loop env' (range 10) no_names) = inr both_names /\
     retries (snd (import_loop env' (range 10) no_names)) = 3%nat).
Proof.
  apply (import_loop_first_success
           (Runs.env_with Scenario.env0 0 3 Runs.flaky (train Scenario.env0))
           3 no_names).
  - lia.
  - intros j Hj.
    destruct j as [| [| [| j]]]; [reflexivity | reflexivity | reflexivity | lia].
  - reflexivity.
Defined.

(** The loop logs messages and sleeps, nothing else. *)
Lemma import_loop_filter (p : event -> bool) (env : Env)
    (tries : list nat) (ns : names) :
  (forall items, p (EvPrint items) = false) ->
  (forall q, p (EvSleep q) = false) ->
  filter p (snd (import_loop env tries ns)) = [].
Proof.
  intros Hp Hs. revert ns. induction tries as [| k rest IH]; intros ns; simpl.
  - reflexivity.
  - destruct (import_keras env k); try reflexivity.
    + rewrite !bind_emit. simpl. rewrite Hp, Hs. apply IH.
    + rewrite !bind_emit. simpl. rewrite Hp, Hs. apply IH.
Qed.

(** What [setup] can log; counting the data happens on rank 0 only. *)
Lemma setup_filter (p : event -> bool) (args : Args) (env : Env) :
  (forall items, p (EvPrint items) = false) ->
  (forall q, p (EvSleep q) = false) ->
  (forall k v, p (EvSetenv k v) = false) ->
  p EvImportTheano = false ->
  (forall a b c d, p (EvH5Data a b c d) = false) ->
  (Get_rank env = 0 -> p EvCountData = false) ->
  (forall path, p (EvModelCheckpoint path) = false) ->
  filter p (snd (setup args env)) = [].
Proof.
  intros Hprint Hsleep Hsetenv Htheano Hdata Hcount Hcheck. unfold setup.
  do 3 (apply filter_bind; [reflexivity | intros ? _]).
  apply filter_bind; [simpl; rewrite Hprint; reflexivity | intros ? _].
  apply filter_bind; [simpl; rewrite Hsetenv; reflexivity | intros ? _].
  apply filter_bind; [simpl; rewrite Htheano; reflexivity | intros ? _].
  apply filter_bind; [apply import_loop_filter; assumption | intros ns _].
  apply filter_bind; [simpl; rewrite Hdata; reflexivity | intros ? _].
  apply filter_bind; [reflexivity | intros ? _].
  apply filter_bind.
  { destruct (Get_rank env =? 0) eqn:Hr; [|reflexivity].
    apply Z.eqb_eq in Hr.
    apply filter_bind; [simpl; rewrite (Hcount Hr); reflexivity | intros ? _].
    do 2 (apply filter_bind; [reflexivity | intros ? _]).
    reflexivity. }
  intros ve _.
  apply filter_bind; [destruct (has_cbks ns); reflexivity | intros ? _].
  apply filter_bind; [simpl; rewrite Hcheck; reflexivity | intros ? _].
  reflexivity.
Qed.

Lemma load_model_silent (env : Env) (ns : names) (name : string) (lw : bool) :
  snd (load_model env ns name lw) = [].
Proof.
  unfold load_model.
  destruct (open_read env (name ++ "_arch.json")%string) as [e | lines];
    [reflexivity|].
  rewrite bind_lift_ok.
  destruct (has_model_from_json ns); [|reflexivity].
  unfold need. rewrite bind_ret.
  destruct (model_from_json env (hd "" lines)) as [e | model]; [reflexivity|].
  rewrite bind_lift_ok.
  destruct lw; [|reflexivity].
  destruct (model_load_weights env model (name ++ "_weights.h5")%string);
    reflexivity.
Qed.

(** What [rank0] can log. *)
Lemma rank0_filter (p : event -> bool) (args : Args) (env : Env)
    (ns : names) (v : Z) :
  (forall items, p (EvPrint items) = false) ->
  (forall algo, p (EvPrintAlgo algo) = false) ->
  (forall a b c, p (EvSetModelInfo a b c) = false) ->
  (forall t, p (EvTime t) = false) ->
  p EvTrain = false ->
  (forall histories, train env = inr histories ->
     p EvFreeComms = false /\ forall path c, p (EvWrite path c) = false) ->
  filter p (snd (rank0 args env ns v)) = [].
Proof.
  intros Hprint Halgo Hinfo Htime Htrain Hafter. unfold rank0.
  apply filter_bind; [rewrite load_model_silent; reflexivity | intros model _].
  apply filter_bind; [reflexivity | intros algo _].
  apply filter_bind; [simpl; rewrite Halgo; reflexivity | intros ? _].
  apply filter_bind; [simpl; rewrite Hinfo; reflexivity | intros ? _].
  apply filter_bind; [simpl; rewrite Htime; reflexivity | intros ? _].
  apply filter_bind; [simpl; rewrite Htrain; reflexivity | intros ? _].
  apply filter_bind; [reflexivity | intros histories Hh].
  assert (Ht : train env = inr histories) by exact Hh.
  destruct (Hafter histories Ht) as [Hfree Hwrite].
  apply filter_bind; [simpl; rewrite Htime; reflexivity | intros ? _].
  apply filter_bind; [simpl; rewrite Hfree; reflexivity | intros ? _].
  apply filter_bind; [simpl; rewrite Hprint; reflexivity | intros ? _].
  apply filter_bind; [reflexivity | intros ? _].
  apply filter_bind; [simpl; rewrite Hwrite; reflexivity | intros ? _].
  simpl. rewrite Hprint. reflexivity.
Qed.

(** An exception other than [ValueError] is not caught by the loop: it ends
    the loop at once, after one sleep per earlier failed attempt, and with
    it the run, before anything is asked of the manager. *)
Theorem import_loop_uncaught (args : Args) (env : Env) (k : nat) (e : exn) :
  (k < 10)%nat ->
  (forall j, (j < k)%nat -> import_fails (import_keras env j) = true) ->
  import_keras env k = ImportRaises e ->
  (forall ns, exists tr,
     import_loop env (range 10) ns = (inl e, tr) /\ retries tr = k) /\
  fails (main args env) /\
  quiet (main args env) /\
  filter is_h5data (snd (main args env)) = [].
Proof.
  intros Hk Hfail He.
  assert (Hloop : forall ns, exists tr,
             import_loop env (range 10) ns = (inl e, tr) /\ retries tr = k).
  { intros ns.
    destruct (import_loop_skips env k 10 0 ns ltac:(lia))
      as (ns' & tr & Hn & _ & _ & _ & E).
    { intros j Hj. apply Hfail. lia. }
    unfold range. rewrite E. simpl (0 + k)%nat.
    destruct (10 - k)%nat as [| m] eqn:Hm; [lia|].
    simpl seq. simpl import_loop. rewrite He.
    exists tr. rewrite bind_pair_ok. simpl. rewrite app_nil_r. auto. }
  assert (Hsetup : fails (setup args env)).
  { unfold setup. do 6 (apply fails_bind; intros ? _).
    destruct (Hloop {| has_model_from_json := false; has_cbks := false |})
      as (tr & E & _).
    unfold fails, bind. rewrite E. simpl. exists e. reflexivity. }
  destruct (main_fails_with_setup args env Hsetup) as [Hm Hs].
  split; [assumption|]. split; [assumption|]. split.
  - unfold quiet. rewrite Hs. apply setup_quiet.
  - rewrite Hs. unfold setup.
    do 3 (apply filter_bind; [reflexivity | intros ? _]).
    do 3 (apply filter_bind; [reflexivity | intros ? _]).
    apply filter_bind; [apply import_loop_filter; reflexivity|].
    intros ns Hns.
    destruct (Hloop {| has_model_from_json := false; has_cbks := false |})
      as (tr & E & _).
    rewrite E in Hns. discriminate.
Qed.

Lemma import_loop_uncaught_witness :
  (forall ns, exists tr,
     import_loop (Runs.env_with Scenario.env0 0 3 Runs.broken (train Scenario.env0))
                 (range 10) ns = (inl ImportError, tr) /\ retries tr = 2%nat) /\
  fails (main Scenario.args0
              (Runs.env_with Scenario.env0 0 3 Runs.broken (train Scenario.env0))) /\
  quiet (main Scenario.args0
              (Runs.env_with Scenario.env0 0 3 Runs.broken (train Scenario.env0))) /\
  filter is_h5data
    (snd (main Scenario.args0
            (Runs.env_with Scenario.env0 0 3 Runs.broken (train Scenario.env0))))
    = [].
Proof.
  apply (import_loop_uncaught Scenario.args0
           (Runs.env_with Scenario.env0 0 3 Runs.broken (train Scenario.env0))
           2 ImportError).
  - lia.
  - intros j Hj. destruct j as [| [| j]]; [reflexivity | reflexivity | lia].
  - reflexivity.
Defined.

(** ** Ranks other than 0 *)

(** A process whose rank is not 0 counts no data, loads no model, starts no
    training and writes no file: once its setup is through, constructing the
    manager is the last thing the script does on it, and the outcome of the
    construction is the outcome of the run. *)
Theorem other_ranks_stop_at_manager (args : Args) (env : Env) :
  Get_rank env <> 0 ->
  filter is_rank0_action (snd (main args env)) = [] /\
  (forall tl vl ns ve tr,
     setup args env = (inr (tl, vl, ns, ve), tr) ->
     ve = None /\
     main args env
       = (MPIManager env (Get_size env) (masters args),
          tr ++ [EvMPIManager (epochs args) tl vl (masters args)
                              (synchronous args)])).
Proof.
  intros Hr.
  assert (Hb : (Get_rank env =? 0) = false) by (now apply Z.eqb_neq).
  split.
  - unfold main. apply filter_bind.
    + apply setup_filter; try reflexivity. intros H. contradiction.
    + intros [[[tl vl] ns] ve] _.
      apply filter_bind; [reflexivity | intros ? _].
      apply filter_bind; [reflexivity | intros ? _].
      rewrite Hb. reflexivity.
  - intros tl vl ns ve tr Hs. split.
    + assert (H := setup_validate_every args env tl vl ns ve tr Hs).
      rewrite Hb in H. exact H.
    + unfold main. rewrite Hs. rewrite bind_pair_ok, bind_emit.
      destruct (MPIManager env (Get_size env) (masters args)) as [e | []].
      * reflexivity.
      * rewrite bind_lift_ok, Hb. reflexivity.
Qed.

Lemma other_ranks_stop_at_manager_witness :
  filter is_rank0_action (snd (main Scenario.args0 Runs.env_worker)) = [] /\
  (forall tl vl ns ve tr,
     setup Scenario.args0 Runs.env_worker = (inr (tl, vl, ns, ve), tr) ->
     ve = None /\
     main Scenario.args0 Runs.env_worker
       = (MPIManager Runs.env_worker (Get_size Runs.env_worker)
                     (masters Scenario.args0),
          tr ++ [EvMPIManager (epochs Scenario.args0) tl vl
                              (masters Scenario.args0)
                              (synchronous Scenario.args0)])).
Proof.
  apply (other_ranks_stop_at_manager Scenario.args0 Runs.env_worker).
  vm_compute. discriminate.
Defined.

(** ** Rank 0 *)

Lemma fails_bind_fails {A B} (m : M A) (k : A -> M B) :
  fails m -> fails (bind m k).
Proof. intros [e He]. exists e. now apply bind_fst_err. Qed.

(** If [main] completes on rank 0, [rank0] was run and completed. *)
Lemma main_completed_rank0 (args : Args) (env : Env) (tr : list event) :
  Get_rank env = 0 ->
  main args env = (inr tt, tr) ->
  exists tl vl ns v t1 t2,
    setup args env = (inr (tl, vl, ns, Some v), t1) /\
    MPIManager env (Get_size env) (masters args) = inr tt /\
    rank0 args env ns v = (inr tt, t2) /\
    tr = t1 ++ EvMPIManager (epochs args) tl vl (masters args)
                            (synchronous args) :: t2.
Proof.
  intros Hr H. unfold main in H.
  apply bind_ok_inv in H. destruct H as ([[[tl vl] ns] ve] & t1 & ? & Hs & H & ->).
  apply bind_ok_inv in H. destruct H as (? & ? & ? & E1 & H & ->).
  apply emit_inv in E1. subst.
  apply bind_ok_inv in H. destruct H as ([] & ? & ? & E1 & H & ->).
  apply lift_ok_inv in E1. destruct E1 as [Hm ->].
  rewrite Hr in H. simpl in H.
  destruct ve as [v|]; [|discriminate].
  exists tl, vl, ns, v, t1. eexists. repeat split; eauto.
Qed.

(** When [train()] raises on rank 0 the exception ends the run:
    [free_comms()] is not called and no history file is written. *)
Theorem train_failure_skips_cleanup (args : Args) (env : Env) (e : exn) :
  Get_rank env = 0 ->
  train env = inl e ->
  fails (main args env) /\
  filter is_free_comms (snd (main args env)) = [] /\
  filter is_write (snd (main args env)) = [].
Proof.
  intros Hr Ht.
  assert (Hnone : forall histories, train env = inr histories -> False)
    by (intros h Hh; rewrite Ht in Hh; discriminate).
  split; [|split].
  - destruct (main args env) as [[e' | []] tr] eqn:Hm.
    + exists e'. reflexivity.
    + destruct (main_completed_rank0 args env tr Hr Hm)
        as (tl & vl & ns & v & t1 & t2 & _ & _ & H0 & _).
      apply rank0_completed in H0. destruct H0 as (h & _ & Hh & _).
      exfalso. eapply Hnone. exact Hh.
  - unfold main. apply filter_bind.
    + apply setup_filter; reflexivity.
    + intros [[[tl vl] ns] ve] _.
      apply filter_bind; [reflexivity | intros ? _].
      apply filter_bind; [reflexivity | intros ? _].
      destruct (Get_rank env =? 0); [|reflexivity].
      destruct ve as [v|]; [|reflexivity].
      apply rank0_filter; try reflexivity.
      intros h Hh. exfalso. eapply Hnone. exact Hh.
  - unfold main. apply filter_bind.
    + apply setup_filter; reflexivity.
    + intros [[[tl vl] ns] ve] _.
      apply filter_bind; [reflexivity | intros ? _].
      apply filter_bind; [reflexivity | intros ? _].
      destruct (Get_rank env =? 0); [|reflexivity].
      destruct ve as [v|]; [|reflexivity].
      apply rank0_filter; try reflexivity.
      intros h Hh. exfalso. eapply Hnone. exact Hh.
Qed.

Lemma train_failure_skips_cleanup_witness :
  fails (main Scenario.args0 Runs.env_train_fails) /\
  filter is_free_comms (snd (main Scenario.args0 Runs.env_train_fails)) = [] /\
  filter is_write (snd (main Scenario.args0 Runs.env_train_fails)) = [].
Proof.
  apply (train_failure_skips_cleanup Scenario.args0 Runs.env_train_fails
           TransportError); reflexivity.
Defined.

(** With [--easgd] and a single process the division by [Get_size() - 1]
    raises on rank 0.  That happens after the manager has been constructed
    and the model loaded, and before [set_model_info]: nothing is trained. *)
Theorem easgd_single_process_run (args : Args) (env : Env) :
  Get_rank env = 0 ->
  Get_size env = 1 ->
  easgd args = true ->
  fails (main args env) /\
  filter is_training (snd (main args env)) = [] /\
  (forall tl vl ns v tr model tm,
     setup args env = (inr (tl, vl, ns, Some v), tr) ->
     MPIManager env 1 (masters args) = inr tt ->
     load_model env ns (model_name args) (load_weights args) = (inr model, tm) ->
     main args env
       = (inl ZeroDivisionError,
          tr ++ [EvMPIManager (epochs args) tl vl (masters args)
                              (synchronous args)])).
Proof.
  intros Hr Hsize He.
  assert (Halgo : forall v, make_algo args (Get_size env) v = inl ZeroDivisionError)
    by (intros v; rewrite Hsize; now apply easgd_single_process_raises).
  split; [|split].
  - destruct (main args env) as [[e' | []] tr] eqn:Hm.
    + exists e'. reflexivity.
    + destruct (main_completed_rank0 args env tr Hr Hm)
        as (tl & vl & ns & v & t1 & t2 & _ & _ & H0 & _).
      unfold rank0 in H0.
      apply bind_ok_inv in H0. destruct H0 as (? & ? & ? & _ & H0 & _).
      apply bind_ok_inv in H0. destruct H0 as (? & ? & ? & E & _ & _).
      apply lift_ok_inv in E. destruct E as [E _].
      rewrite Halgo in E. discriminate.
  - unfold main. apply filter_bind.
    + apply setup_filter; reflexivity.
    + intros [[[tl vl] ns] ve] _.
      apply filter_bind; [reflexivity | intros ? _].
      apply filter_bind; [reflexivity | intros ? _].
      destruct (Get_rank env =? 0); [|reflexivity].
      destruct ve as [v|]; [|reflexivity].
      unfold rank0.
      apply filter_bind; [rewrite load_model_silent; reflexivity | intros ? _].
      rewrite Halgo. reflexivity.
  - intros tl vl ns v tr model tm Hs Hm Hl.
    assert (Htm : tm = []).
    { assert (H := load_model_silent env ns (model_name args) (load_weights args)).
      rewrite Hl in H. exact H. }
    subst tm.
    unfold main. rewrite Hs, bind_pair_ok, bind_emit, Hsize, Hm, bind_lift_ok.
    rewrite Hr. simpl (0 =? 0). cbv iota.
    unfold rank0. rewrite Hl, bind_pair_ok. rewrite Hsize.
    rewrite (easgd_single_process_raises args v He). reflexivity.
Qed.

Lemma easgd_single_process_run_witness :
  fails (main Scenario.args0 Runs.env_alone) /\
  filter is_training (snd (main Scenario.args0 Runs.env_alone)) = [] /\
  (forall tl vl ns v tr model tm,
     setup Scenario.args0 Runs.env_alone = (inr (tl, vl, ns, Some v), tr) ->
     MPIManager Runs.env_alone 1 (masters Scenario.args0) = inr tt ->
     load_model Runs.env_alone ns (model_name Scenario.args0)
                (load_weights Scenario.args0) = (inr model, tm) ->
     main Scenario.args0 Runs.env_alone
       = (inl ZeroDivisionError,
          tr ++ [EvMPIManager (epochs Scenario.args0) tl vl
                              (masters Scenario.args0)
                              (synchronous Scenario.args0)])).
Proof.
  apply (easgd_single_process_run Scenario.args0 Runs.env_alone); reflexivity.
Defined.

(** A batch size of 0 ends the run of rank 0 during setup, at the latest at
    the division of line 101, so rank 0 never constructs the manager; when
    the calls before the division answer, the exception is
    [ZeroDivisionError] and the data set has been built and counted. *)
Theorem zero_batch_stops_rank0 (args : Args) (env : Env) :
  Get_rank env = 0 ->
  batch args = 0 ->
  fails (main args env) /\
  quiet (main args env) /\
  (forall tl vl dev ns t count,
     open_read env (train_data args) = inr tl ->
     open_read env (val_data args) = inr vl ->
     get_device env (masters args) (max_gpus args) = inr dev ->
     import_loop env (range 10) no_names = (inr ns, t) ->
     H5Data env (map strip tl) 0 = inr tt ->
     count_data env = inr count ->
     fst (main args env) = inl ZeroDivisionError /\
     In EvCountData (snd (main args env))).
Proof.
  intros Hr Hb.
  assert (Hsetup : fails (setup args env)).
  { unfold setup. do 9 (apply fails_bind; intros ? _).
    apply fails_bind_fails.
    rewrite Hr. simpl (0 =? 0). cbv iota.
    apply fails_bind; intros ? _. apply fails_bind; intros count _.
    rewrite Hb. exists ZeroDivisionError. reflexivity. }
  destruct (main_fails_with_setup args env Hsetup) as [Hm Hs].
  split; [assumption|]. split.
  - unfold quiet. rewrite Hs. apply setup_quiet.
  - intros tl vl dev ns t count H1 H2 H3 H4 H5 H6.
    rewrite Hs.
    assert (E : setup args env
                = (inl ZeroDivisionError,
                   [EvPrint [PStr "Process"; PInt (Get_rank env);
                             PStr "using device"; PStr dev];
                    EvSetenv "THEANO_FLAGS"
                             ("device=" ++ dev ++ ",floatX=float32")%string;
                    EvImportTheano] ++ t ++
                   [EvH5Data (map strip tl) (batch args) (features_name args)
                             (labels_name args); EvCountData])).
    { unfold setup, bind, lift, emit, ret, need.
      rewrite H1. cbn [fst snd app]. rewrite H2. cbn [fst snd app].
      rewrite H3. cbn [fst snd app].
      change {| has_model_from_json := false; has_cbks := false |} with no_names.
      rewrite H4. cbn [fst snd app]. rewrite Hb, H5. cbn [fst snd app].
      rewrite Hr. simpl (0 =? 0). cbv iota. cbn [fst snd app].
      rewrite H6. cbn [fst snd app].
      unfold derive_validate_every, py_int_div. simpl (0 =? 0). cbv iota.
      cbn [fst snd app]. reflexivity. }
    split.
    + unfold main. apply bind_fst_err. rewrite E. reflexivity.
    + rewrite E. simpl. do 3 right.
      apply in_or_app. right. simpl. auto.
Qed.

Lemma zero_batch_stops_rank0_witness :
  fails (main (Runs.args_batch 0) Scenario.env0) /\
  quiet (main (Runs.args_batch 0) Scenario.env0) /\
  (forall tl vl dev ns t count,
     open_read Scenario.env0 (train_data (Runs.args_batch 0)) = inr tl ->
     open_read Scenario.env0 (val_data (Runs.args_batch 0)) = inr vl ->
     get_device Scenario.env0 (masters (Runs.args_batch 0))
                (max_gpus (Runs.args_batch 0)) = inr dev ->
     import_loop Scenario.env0 (range 10) no_names = (inr ns, t) ->
     H5Data Scenario.env0 (map strip tl) 0 = inr tt ->
     count_data Scenario.env0 = inr count ->
     fst (main (Runs.args_batch 0) Scenario.env0) = inl ZeroDivisionError /\
     In EvCountData (snd (main (Runs.args_batch 0) Scenario.env0))).
Proof.
  apply (zero_batch_stops_rank0 (Runs.args_batch 0) Scenario.env0); reflexivity.
Defined.

(** ** The builder and the loader *)

Lemma readline_single_line (s : string) :
  Files.single_line s = true -> Files.readline s = s.
Proof.
  unfold Files.readline. induction s as [| c s IH]; intros H; [reflexivity|].
  simpl in H. apply andb_true_iff in H. destruct H as [Hc Hs].
  apply negb_true_iff in Hc. simpl. rewrite Hc.
  specialize (IH Hs).
  destruct (Files.readlines s) as [| l ls]; simpl in *; rewrite IH; reflexivity.
Qed.

(** Only the text up to the first line end counts. *)
Lemma readline_first_line (a b : string) :
  Files.single_line a = true ->
  Files.readline (a ++ String Files.newline b)
    = (a ++ String Files.newline EmptyString)%string.
Proof.
  unfold Files.readline. intros H. induction a as [| c a IH].
  - reflexivity.
  - simpl in H. apply andb_true_iff in H. destruct H as [Hc Ha].
    apply negb_true_iff in Hc. simpl. rewrite Hc.
    specialize (IH Ha).
    destruct (Files.readlines (a ++ String Files.newline b)) as [| l ls];
      simpl in *.
    + destruct a; discriminate.
    + subst l. reflexivity.
Qed.

(** What a completed run of the builder has done. *)
Lemma build_model_completed (benv : BuildModel.Env) (name : string)
    (tr : list BuildModel.event) :
  BuildModel.main benv name = (inr tt, tr) ->
  exists model,
    BuildModel.make_model benv name = inr model /\
    tr = [ BuildModel.EvSaveWeights (name ++ "_weights.h5")%string
                                    (get_weights model);
           BuildModel.EvPrint
             ("Saved model weights to " ++ (name ++ "_weights.h5"))%string;
           BuildModel.EvWrite (name ++ "_arch.json")%string (to_json model);
           BuildModel.EvPrint
             ("Saved model architecture to " ++ (name ++ "_arch.json"))%string ].
Proof.
  unfold BuildModel.main. intros H.
  destruct (BuildModel.make_model benv name) as [e | model]; [discriminate|].
  destruct (BuildModel.save_weights benv model _) as [e | u]; [discriminate|].
  destruct (BuildModel.open_write benv _) as [e | u']; [discriminate|].
  inversion H. exists model. split; reflexivity.
Qed.

(** What [BuildModel.py] saves for a model name is what [load_model] of the
    driver reads back for that name: the two scripts agree on both file
    names, and when the JSON text has no line end the parser is handed
    exactly the text [to_json()] produced; with [--load-weights] the weights
    come from the file the builder saved them to. *)
Theorem build_then_load (benv : BuildModel.Env) (name : string)
    (tr : list BuildModel.event) (d : Files.disk) (env : Env) (ns : names) :
  BuildModel.main benv name = (inr tt, tr) ->
  (forall p, open_read env p = Files.open_read (BuildModel.disk_after d tr) p) ->
  (forall m p, model_load_weights env m p
               = Files.load_weights (BuildModel.disk_after d tr) m p) ->
  has_model_from_json ns = true ->
  exists model,
    BuildModel.make_model benv name = inr model /\
    (Files.single_line (to_json model) = true ->
     load_model env ns name false
       = lift (model_from_json env (to_json model)) /\
     load_model env ns name true
       = lift (match model_from_json env (to_json model) with
               | inl e => inl e
               | inr parsed => inr {| to_json := to_json parsed;
                                      get_weights := get_weights model |}
               end)).
Proof.
  intros Hb Hread Hload Hns.
  destruct (build_model_completed benv name tr Hb) as (model & Hm & ->).
  exists model. split; [assumption|]. intros Hline.
  assert (Hopen : open_read env (name ++ "_arch.json")%string
                  = inr (Files.readlines (to_json model))).
  { rewrite Hread. unfold Files.open_read, BuildModel.disk_after. simpl.
    rewrite String.eqb_refl. reflexivity. }
  assert (Hhd : hd "" (Files.readlines (to_json model)) = to_json model)
    by (apply readline_single_line; assumption).
  split.
  - unfold load_model. rewrite Hopen, bind_lift_ok, Hns. unfold need.
    rewrite bind_ret, Hhd.
    destruct (model_from_json env (to_json model)); reflexivity.
  - unfold load_model. rewrite Hopen, bind_lift_ok, Hns. unfold need.
    rewrite bind_ret, Hhd.
    destruct (model_from_json env (to_json model)) as [e | parsed];
      [reflexivity|].
    rewrite bind_lift_ok, Hload.
    unfold Files.load_weights, BuildModel.disk_after. simpl.
    rewrite String.eqb_refl. reflexivity.
Qed.

Lemma build_then_load_witness :
  exists model,
    BuildModel.make_model Runs.builder "mnist" = inr model /\
    (Files.single_line (to_json model) = true ->
     load_model
       (Runs.env_on_disk
          (BuildModel.disk_after Files.empty_disk
             (snd (BuildModel.main Runs.builder "mnist"))))
       both_names "mnist" false
       = lift (model_from_json
                 (Runs.env_on_disk
                    (BuildModel.disk_after Files.empty_disk
                       (snd (BuildModel.main Runs.builder "mnist"))))
                 (to_json model)) /\
     load_model
       (Runs.env_on_disk
          (BuildModel.disk_after Files.empty_disk
             (snd (BuildModel.main Runs.builder "mnist"))))
       both_names "mnist" true
       = lift (match model_from_json
                       (Runs.env_on_disk
                          (BuildModel.disk_after Files.empty_disk
                             (snd (BuildModel.main Runs.builder "mnist"))))
                       (to_json model) with
               | inl e => inl e
               | inr parsed => inr {| to_json := to_json parsed;
                                      get_weights := get_weights model |}
               end)).
Proof.
  apply (build_then_load Runs.builder "mnist"
           (snd (BuildModel.main Runs.builder "mnist")) Files.empty_disk
           (Runs.env_on_disk
              (BuildModel.disk_after Files.empty_disk
                 (snd (BuildModel.main Runs.builder "mnist"))))
           both_names).
  - reflexivity.
  - intros p. reflexivity.
  - intros m p. reflexivity.
  - reflexivity.
Defined.

(** [load_model] parses the first line of the architecture file and nothing
    else: whatever follows the first line end does not reach the parser. *)
Theorem load_model_reads_first_line (env1 env2 : Env) (ns : names)
    (name a b : string) (lw : bool) (d1 d2 : Files.disk) :
  Files.single_line a = true ->
  Files.text_files d1 (name ++ "_arch.json")%string
    = Some (a ++ String Files.newline b)%string ->
  Files.text_files d2 (name ++ "_arch.json")%string
    = Some (a ++ String Files.newline EmptyString)%string ->
  (forall p, open_read env1 p = Files.open_read d1 p) ->
  (forall p, open_read env2 p = Files.open_read d2 p) ->
  (forall s, model_from_json env1 s = model_from_json env2 s) ->
  (forall m p, model_load_weights env1 m p = model_load_weights env2 m p) ->
  load_model env1 ns name lw = load_model env2 ns name lw /\
  (has_model_from_json ns = true ->
   load_model env1 ns name false
     = lift (model_from_json env1 (a ++ String Files.newline EmptyString)%string)).
Proof.
  intros Ha H1 H2 Hr1 Hr2 Hp Hw.
  assert (E1 : open_read env1 (name ++ "_arch.json")%string
               = inr (Files.readlines (a ++ String Files.newline b))).
  { rewrite Hr1. unfold Files.open_read. rewrite H1. reflexivity. }
  assert (E2 : open_read env2 (name ++ "_arch.json")%string
               = inr (Files.readlines (a ++ String Files.newline EmptyString))).
  { rewrite Hr2. unfold Files.open_read. rewrite H2. reflexivity. }
  assert (L1 := readline_first_line a b Ha).
  assert (L2 := readline_first_line a EmptyString Ha).
  unfold Files.readline in L1, L2.
  split.
  - unfold load_model. rewrite E1, E2, !bind_lift_ok, L1, L2.
    destruct (has_model_from_json ns); [|reflexivity].
    unfold need. rewrite !bind_ret, Hp.
    destruct (model_from_json env2 _) as [e | m]; [reflexivity|].
    rewrite !bind_lift_ok. destruct lw; [|reflexivity].
    rewrite Hw. reflexivity.
  - intros Hns. unfold load_model. rewrite E1, bind_lift_ok, L1, Hns.
    unfold need. rewrite bind_ret.
    destruct (model_from_json env1 _); reflexivity.
Qed.
